(** * Greenhouse Modbus device: register map, fan controller, sensor simulator

    A shallow embedding of [server/data_model.py], [server/fan.py],
    [server/sensors.py] and the update loop of [server/main.py].  The four
    Modbus banks live in one shared [DataBank]; the Python methods become
    computations in a small state-and-exception monad over a [World] that
    holds the bank and the source of [random.randint] draws. *)

From Stdlib Require Import ZArith Lia Bool.
From Stdlib Require Import Floats Uint63.
From stdpp Require Import base tactics option list strings pretty.

#[local] Open Scope Z_scope.
#[local] Set Warnings "-inexact-float".

(** ** Python values *)

(** [len(l)] *)
Definition len {A} (l : list A) : Z := Z.of_nat (length l).

(** [l[start:stop]] for integers [start], [stop] (step 1): a negative
    index counts from the end, and both ends are clamped into the list. *)
Definition slice_index {A} (l : list A) (i : Z) : Z :=
  if i <? 0 then Z.max 0 (i + len l) else Z.min i (len l).

Definition slice {A} (l : list A) (start stop : Z) : list A :=
  let s := slice_index l start in
  let e := slice_index l stop in
  take (Z.to_nat (e - s)) (drop (Z.to_nat s) l).

(** [float(n)] as the [int * float] product computes it.  The conversion is
    the correctly rounded one for [|n| < 2^63]; register cells are 16-bit
    words, for which it is exact. *)
Definition float_of_int (n : Z) : float :=
  if n <? 0 then PrimFloat.opp (PrimFloat.of_uint63 (Uint63.of_Z (- n)))
  else PrimFloat.of_uint63 (Uint63.of_Z n).

(** [int(f)]: truncation toward zero of a binary64 value; [None] where
    Python raises (NaN, infinities). *)
Definition int_of_float (f : float) : option Z :=
  match Prim2SF f with
  | S754_zero _ => Some 0
  | S754_finite s m e =>
      let a := if 0 <=? e then Z.shiftl (Z.pos m) e
               else Z.shiftr (Z.pos m) (- e) in
      Some (if s then - a else a)
  | S754_infinity _ | S754_nan => None
  end.

(** ** The register store: pyModbusTCP's [DataBank]

    The class comes from the pyModbusTCP package (0.2.x instance API, the
    one [data_model.py] calls).  Each bank is a Python list allocated by the
    constructor; [get_*] return the cells or [None] when the range leaves
    the bank, [set_*] write the cells and return [True], or write nothing
    and return [None] when the range leaves the bank.  Register writes keep
    [int(w) & 0xffff], boolean writes keep [bool(b)]. *)
Module Modbus.

Record DataBank := mkDataBank {
  coils : list bool;
  d_inputs : list bool;
  h_regs : list Z;
  i_regs : list Z
}.

(** [DataBank(coils_size, d_inputs_size, h_regs_size, i_regs_size)];
    the cells start as [False] and [0]. *)
Definition new (coils_size d_inputs_size h_regs_size i_regs_size : nat)
  : DataBank :=
  {| coils := replicate coils_size false;
     d_inputs := replicate d_inputs_size false;
     h_regs := replicate h_regs_size 0;
     i_regs := replicate i_regs_size 0 |}.

(** [DataBank()]: every size defaults to [0x10000]. *)
Definition DataBank_default : DataBank :=
  new (Z.to_nat 65536) (Z.to_nat 65536) (Z.to_nat 65536) (Z.to_nat 65536).

(** The body shared by the four getters:
    [if address >= 0 and address + number <= len(bank):
       return bank[address: number + address]
     else: return None] *)
Definition get_cells {A} (bank : list A) (address number : Z)
  : option (list A) :=
  if (0 <=? address) && (address + number <=? len bank)
  then Some (slice bank address (number + address))
  else None.

(** The body shared by the four setters, after the values have been
    normalised: the new bank, and [Some tt] for [True] or [None]. *)
Definition set_cells {A} (bank : list A) (address : Z) (values : list A)
  : option unit * list A :=
  if (0 <=? address) && (address + len values <=? len bank)
  then (Some tt, list_inserts (Z.to_nat address) values bank)
  else (None, bank).

(** [int(w) & 0xffff] *)
Definition word (w : Z) : Z := Z.land w 65535.

Definition get_coils (d : DataBank) (address number : Z) :=
  get_cells (coils d) address number.
Definition get_discrete_inputs (d : DataBank) (address number : Z) :=
  get_cells (d_inputs d) address number.
Definition get_holding_registers (d : DataBank) (address number : Z) :=
  get_cells (h_regs d) address number.
Definition get_input_registers (d : DataBank) (address number : Z) :=
  get_cells (i_regs d) address number.

Definition set_coils (d : DataBank) (address : Z) (bit_list : list bool)
  : option unit * DataBank :=
  let (r, b) := set_cells (coils d) address bit_list in
  (r, {| coils := b; d_inputs := d_inputs d;
         h_regs := h_regs d; i_regs := i_regs d |}).

Definition set_discrete_inputs (d : DataBank) (address : Z)
    (bit_list : list bool) : option unit * DataBank :=
  let (r, b) := set_cells (d_inputs d) address bit_list in
  (r, {| coils := coils d; d_inputs := b;
         h_regs := h_regs d; i_regs := i_regs d |}).

Definition set_holding_registers (d : DataBank) (address : Z)
    (word_list : list Z) : option unit * DataBank :=
  let (r, b) := set_cells (h_regs d) address (word <$> word_list) in
  (r, {| coils := coils d; d_inputs := d_inputs d;
         h_regs := b; i_regs := i_regs d |}).

Definition set_input_registers (d : DataBank) (address : Z)
    (word_list : list Z) : option unit * DataBank :=
  let (r, b) := set_cells (i_regs d) address (word <$> word_list) in
  (r, {| coils := coils d; d_inputs := d_inputs d;
         h_regs := h_regs d; i_regs := b |}).

End Modbus.

Import Modbus.

(** ** data_model.py: [Addresses] *)
Module Addresses.
(* Input registers *)
Definition IR_AIRFLOW : Z := 0.
Definition IR_TEMPERATURE : Z := 1.
Definition IR_HUMIDITY : Z := 2.
Definition IR_FAN_RPM : Z := 3.
Definition IR_FAN_STATE : Z := 4.
(* Holding registers *)
Definition HR_AIRFLOW_SP : Z := 0.
Definition HR_TEMPERATURE_SP : Z := 1.
Definition HR_FAN_MODE_CMD : Z := 2.
Definition HR_FAN_RPM_SP : Z := 3.
Definition HR_SIM_ENABLE : Z := 4.
(* Coils *)
Definition COIL_FAN_ENABLE : Z := 0.
Definition COIL_FAN_HIGH_REQ : Z := 1.
Definition COIL_ALARM_RESET : Z := 2.
(* Discrete inputs *)
Definition DI_FAN_FAULT : Z := 0.
Definition DI_FILTER_DIRTY : Z := 1.
Definition DI_FAN_RUNNING : Z := 2.
End Addresses.

(** ** Effects: the shared bank, the random source, exceptions *)

(** Python exceptions that the modelled code can raise. *)
Inductive exn :=
  | IndexError (msg : string)
  | ValueError
  | OverflowError.

Inductive Result (A : Type) :=
  | Ok (a : A)
  | Raise (e : exn).
Arguments Ok {A} a.
Arguments Raise {A} e.

(** [db] is the one [DataBank] every [DataModel] handle points to.
    [random.randint] returns [randoms k] at its [k]-th call: a real
    generator keeps inside the bounds it is given, the test doubles
    ([MockRandom], the monkeypatched lambdas) ignore them, so the draws are
    left unconstrained. *)
Record World := mkWorld {
  db : DataBank;
  randoms : nat -> Z;
  draws : nat
}.

Definition M (A : Type) : Type := World -> Result A * World.

Definition ret {A} (a : A) : M A := fun w => (Ok a, w).

(** An exception skips the rest of the computation and keeps the writes
    made so far. *)
Definition bind {A B} (m : M A) (f : A -> M B) : M B := fun w =>
  match m w with
  | (Ok a, w') => f a w'
  | (Raise e, w') => (Raise e, w')
  end.

Declare Scope M_scope.
Delimit Scope M_scope with M.
Bind Scope M_scope with M.
Notation "x <- m ;; k" := (bind m (fun x => k))
  (at level 62, m at next level, right associativity) : M_scope.
Notation "m ;;; k" := (bind m (fun _ => k))
  (at level 62, right associativity) : M_scope.
#[local] Open Scope M_scope.

Definition raise {A} (e : exn) : M A := fun w => (Raise e, w).

Definition set_db (d : DataBank) (w : World) : World :=
  {| db := d; randoms := randoms w; draws := draws w |}.

(** [random.randint(a, b)] *)
Definition randint (a b : Z) : M Z := fun w =>
  (Ok (randoms w (draws w)),
   {| db := db w; randoms := randoms w; draws := S (draws w) |}).

(** The world a computation leaves, and what it returned. *)
Definition exec {A} (m : M A) (w : World) : World := snd (m w).
Definition result {A} (m : M A) (w : World) : Result A := fst (m w).

(** ** data_model.py: [DataModel] *)

(** *** generic helpers *)

Definition read_input (addr : Z) : M Z := fun w =>
  match get_input_registers (db w) addr 1 with
  | Some (v :: _) => (Ok v, w)
  | Some [] | None =>
      (Raise (IndexError
                ("Input register address out of range: " +:+ pretty addr)), w)
  end.

Definition write_input (addr value : Z) : M unit := fun w =>
  (Ok tt, set_db (snd (set_input_registers (db w) addr [value])) w).

Definition read_holding (addr : Z) : M Z := fun w =>
  match get_holding_registers (db w) addr 1 with
  | Some (v :: _) => (Ok v, w)
  | Some [] | None =>
      (Raise (IndexError
                ("Holding register address out of range: " +:+ pretty addr)), w)
  end.

Definition write_holding (addr value : Z) : M unit := fun w =>
  (Ok tt, set_db (snd (set_holding_registers (db w) addr [value])) w).

Definition read_coil (addr : Z) : M bool := fun w =>
  match get_coils (db w) addr 1 with
  | Some (v :: _) => (Ok v, w)
  | Some [] | None =>
      (Raise (IndexError ("Coil address out of range: " +:+ pretty addr)), w)
  end.

Definition write_coil (addr : Z) (value : bool) : M unit := fun w =>
  (Ok tt, set_db (snd (set_coils (db w) addr [value])) w).

Definition read_di (addr : Z) : M bool := fun w =>
  match get_discrete_inputs (db w) addr 1 with
  | Some (v :: _) => (Ok v, w)
  | Some [] | None =>
      (Raise (IndexError
                ("Discrete input address out of range: " +:+ pretty addr)), w)
  end.

Definition write_di (addr : Z) (value : bool) : M unit := fun w =>
  (Ok tt, set_db (snd (set_discrete_inputs (db w) addr [value])) w).

(** *** initialization *)

Definition _init_banks : M unit := fun w =>
  let d1 := snd (set_input_registers (db w) 0 (replicate 32 0)) in
  let d2 := snd (set_holding_registers d1 0 (replicate 32 0)) in
  let d3 := snd (set_coils d2 0 (replicate 16 false)) in
  let d4 := snd (set_discrete_inputs d3 0 (replicate 16 false)) in
  (Ok tt, set_db d4 w).

Definition _init_defaults : M unit :=
  write_holding Addresses.HR_AIRFLOW_SP 250 ;;;
  write_holding Addresses.HR_TEMPERATURE_SP 225 ;;;
  write_holding Addresses.HR_FAN_MODE_CMD 0 ;;;
  write_holding Addresses.HR_FAN_RPM_SP 900 ;;;
  write_holding Addresses.HR_SIM_ENABLE 1 ;;;
  write_coil Addresses.COIL_FAN_ENABLE true.

(** [DataModel.__init__], run on the bank the handle is given. *)
Definition DataModel_init : M unit :=
  _init_banks ;;; _init_defaults.

(** [DataModel(data_bank)]: [data_bank or DataBank()], then the
    initialization; [rand] is the random source of the process. *)
Definition DataModel (data_bank : option DataBank) (rand : nat -> Z) : World :=
  exec DataModel_init
       {| db := match data_bank with Some d => d | None => DataBank_default end;
          randoms := rand; draws := O |}.

(** *** semantic convenience API *)

Definition get_sim_enabled : M bool :=
  v <- read_holding Addresses.HR_SIM_ENABLE ;; ret (v =? 1).

Definition get_fan_mode_cmd : M Z := read_holding Addresses.HR_FAN_MODE_CMD.

Definition get_fan_rpm_sp : M Z := read_holding Addresses.HR_FAN_RPM_SP.

Definition fan_enable : M bool := read_coil Addresses.COIL_FAN_ENABLE.

Definition fan_high_requested : M bool :=
  read_coil Addresses.COIL_FAN_HIGH_REQ.

Definition set_fan_state (state : Z) : M unit :=
  write_input Addresses.IR_FAN_STATE state ;;;
  write_di Addresses.DI_FAN_RUNNING (0 <? state).

Definition set_airflow (value_scaled : Z) : M unit :=
  write_input Addresses.IR_AIRFLOW value_scaled.

Definition set_temperature (value_scaled : Z) : M unit :=
  write_input Addresses.IR_TEMPERATURE value_scaled.

Definition set_humidity (value_scaled : Z) : M unit :=
  write_input Addresses.IR_HUMIDITY value_scaled.

Definition set_fan_rpm (rpm : Z) : M unit :=
  write_input Addresses.IR_FAN_RPM rpm.

Definition set_fault (fault : bool) : M unit :=
  write_di Addresses.DI_FAN_FAULT fault.

Definition set_filter_dirty (dirty : bool) : M unit :=
  write_di Addresses.DI_FILTER_DIRTY dirty.

Definition consume_alarm_reset : M bool :=
  r <- read_coil Addresses.COIL_ALARM_RESET ;;
  if r then write_coil Addresses.COIL_ALARM_RESET false  ;;; ret true
  else ret false.

(** ** fan.py: [FanController] *)

(** [int(rpm_sp * 0.6)] *)
Definition int_mul_0_6 (rpm_sp : Z) : M Z :=
  match int_of_float (PrimFloat.mul (float_of_int rpm_sp) 0.6%float) with
  | Some v => ret v
  | None => raise OverflowError
  end.

(** The commanded mode: the first block of [FanController.update]. *)
Definition fan_commanded_state : M Z :=
  en <- fan_enable ;;
  if negb en then ret 0
  else
    mode_cmd <- get_fan_mode_cmd ;;
    if (mode_cmd =? 1) || (mode_cmd =? 2) then ret mode_cmd
    else
      hi <- fan_high_requested ;;
      ret (if hi then 2 else 1).

(** The RPM simulation: [rpm_actual] for a state and a setpoint. *)
Definition fan_rpm_actual (state rpm_sp : Z) : M Z :=
  if state =? 0 then ret 0
  else if state =? 1 then
    base <- int_mul_0_6 rpm_sp ;;
    j <- randint (-10) 10 ;;
    ret (base + j)
  else
    j <- randint (-15) 15 ;;
    ret (rpm_sp + j).

Definition FanController_update : M unit :=
  state <- fan_commanded_state ;;
  set_fan_state state ;;;
  rpm_sp <- get_fan_rpm_sp ;;
  rpm_actual <- fan_rpm_actual state rpm_sp ;;
  set_fan_rpm (Z.max 0 rpm_actual) ;;;
  let fault := (0 <? state) && (rpm_actual <? 100) in
  set_fault fault ;;;
  reset <- consume_alarm_reset ;;
  if reset then set_fault false else ret tt.

(** ** sensors.py: [SensorSimulator] *)

Definition SensorSimulator_update : M unit :=
  enabled <- get_sim_enabled ;;
  if negb enabled then ret tt
  else
    state <- read_input Addresses.IR_FAN_STATE ;;
    let base := 225 in
    let delta := if state =? 0 then 30 else -5 * state in
    jt <- randint (-2) 2 ;;
    let temp := base + delta + jt in
    let temp := Z.max 150 (Z.min 300 temp) in
    set_temperature temp ;;;
    jh <- randint (-10) 10 ;;
    let humidity := 500 + jh in
    set_humidity humidity ;;;
    let airflow_target :=
      if state =? 0 then 0 else if state =? 1 then 200 else 350 in
    ja <- randint (-5) 5 ;;
    let airflow_actual := Z.max 0 (airflow_target + ja) in
    set_airflow airflow_actual ;;;
    let dirty := (0 <? state) && (airflow_actual <? 100) in
    set_filter_dirty dirty.

(** ** main.py: one pass of the background [loop]

    [if server.is_run: fan.update(); sensors.update()]; the sleep and the
    surrounding [while True] are left to the caller. *)
Definition tick (is_run : bool) : M unit :=
  if is_run then FanController_update ;;; SensorSimulator_update
  else ret tt.

(** ** Observing the banks *)

(** The cell at [a], if [a] is an address of the bank. *)
Definition cell {A} (bank : list A) (a : Z) : option A :=
  if 0 <=? a then bank !! Z.to_nat a else None.

(** The bank after a one-cell write at [a]; unchanged when [a] is not an
    address of the bank. *)
Definition store {A} (bank : list A) (a : Z) (v : A) : list A :=
  if 0 <=? a then <[Z.to_nat a := v]> bank else bank.

(** Every address of the [Addresses] map lies inside its bank. *)
Definition sized (d : DataBank) : Prop :=
  5 <= len (i_regs d) /\ 5 <= len (h_regs d) /\
  3 <= len (coils d) /\ 3 <= len (d_inputs d).

(** Every register cell is a 16-bit word. *)
Definition words (d : DataBank) : Prop :=
  Forall (fun v => 0 <= v < 65536) (i_regs d) /\
  Forall (fun v => 0 <= v < 65536) (h_regs d).

(** ** Specification vocabulary *)

(** The addresses of each bank that a computation is allowed to write. *)
Record footprint := mkFootprint {
  fp_coils : Z -> Prop;
  fp_d_inputs : Z -> Prop;
  fp_h_regs : Z -> Prop;
  fp_i_regs : Z -> Prop
}.

(** Bank [b'] has the length of [b] and its cells outside [P]. *)
Definition bank_agree {A} (P : Z -> Prop) (b b' : list A) : Prop :=
  length b' = length b /\ forall a, ~ P a -> cell b' a = cell b a.

(** [d'] has the banks of [d], cell for cell, outside the footprint, and
    no bank has changed its length. *)
Definition agree_off (fp : footprint) (d d' : DataBank) : Prop :=
  bank_agree (fp_coils fp) (coils d) (coils d') /\
  bank_agree (fp_d_inputs fp) (d_inputs d) (d_inputs d') /\
  bank_agree (fp_h_regs fp) (h_regs d) (h_regs d') /\
  bank_agree (fp_i_regs fp) (i_regs d) (i_regs d').

(** Whatever the start and the outcome (normal return or exception), the
    bank a computation leaves is related to the one it found. *)
Definition keeps (R : DataBank -> DataBank -> Prop) {A} (m : M A) : Prop :=
  forall w, R (db w) (db (exec m w)).

(** The cells [FanController.update] may write. *)
Definition fan_footprint : footprint :=
  {| fp_coils := fun a => a = Addresses.COIL_ALARM_RESET;
     fp_d_inputs := fun a =>
       a = Addresses.DI_FAN_FAULT \/ a = Addresses.DI_FAN_RUNNING;
     fp_h_regs := fun _ => False;
     fp_i_regs := fun a =>
       a = Addresses.IR_FAN_STATE \/ a = Addresses.IR_FAN_RPM |}.

(** [p] holds at [z], [z + 1], ..., [z + fuel - 1]. *)
Fixpoint all_from (fuel : nat) (z : Z) (p : Z -> bool) : bool :=
  match fuel with
  | O => true
  | S k => p z && all_from k (z + 1) p
  end.

(** The state [FanController.update] derives from the three commands. *)
Definition fan_state_of (enable : bool) (mode_cmd : Z) (high : bool) : Z :=
  if negb enable then 0
  else if (mode_cmd =? 1) || (mode_cmd =? 2) then mode_cmd
  else if high then 2 else 1.

(** [rpm_actual] for a state, a setpoint and the jitter drawn, with
    [floor(rpm_sp * 0.6)] written [3 * rpm_sp / 5]. *)
Definition rpm_of (state rpm_sp jitter : Z) : Z :=
  if state =? 0 then 0
  else if state =? 1 then 3 * rpm_sp / 5 + jitter
  else rpm_sp + jitter.

(** What [FanController.update] does after [set_fan_state]: it may write
    the RPM register, the fault input and the alarm-reset coil. *)
Definition fan_tail_footprint : footprint :=
  {| fp_coils := fun a => a = Addresses.COIL_ALARM_RESET;
     fp_d_inputs := fun a => a = Addresses.DI_FAN_FAULT;
     fp_h_regs := fun _ => False;
     fp_i_regs := fun a => a = Addresses.IR_FAN_RPM |}.

(** The alarm-reset coil is as it was, or has been cleared. *)
Definition reset_kept_or_cleared (d d' : DataBank) : Prop :=
  cell (coils d') Addresses.COIL_ALARM_RESET =
    cell (coils d) Addresses.COIL_ALARM_RESET \/
  cell (coils d') Addresses.COIL_ALARM_RESET = Some false.

(** [DataModel()] with every draw of the random source equal to [j]. *)
Definition fresh (j : Z) : World := DataModel None (fun _ => j).

(** Mode command 1 and RPM setpoint 160, as [test_fan_fault_when_rpm_too_low]
    sets them, with the alarm reset pending. *)
Definition faulty_reset : World :=
  exec (write_holding Addresses.HR_FAN_MODE_CMD 1 ;;;
        write_holding Addresses.HR_FAN_RPM_SP 160 ;;;
        write_coil Addresses.COIL_ALARM_RESET true) (fresh 0).


(** sim-enable set to 2, fan off, no jitter. *)
Definition sim_two_off : World :=
  exec (write_holding Addresses.HR_SIM_ENABLE 2) (fresh 0).

(** sim-enable set to 2, fan state 1, and a jitter of -150 as in
    [test_dirty_filter_condition]. *)
Definition sim_two_low : World :=
  exec (write_holding Addresses.HR_SIM_ENABLE 2 ;;; set_fan_state 1)
       (fresh (-150)).

(** sim-enable set to 0 over sensor values written beforehand, as in
    [test_simulation_disabled]. *)
Definition sim_off : World :=
  exec (write_holding Addresses.HR_SIM_ENABLE 0 ;;;
        set_temperature 200 ;;; set_humidity 450 ;;; set_airflow 150)
       (fresh 0).

(** The boolean test of [words]. *)
Definition wordsb (d : DataBank) : bool :=
  forallb (fun v => (0 <=? v) && (v <? 65536)) (i_regs d) &&
  forallb (fun v => (0 <=? v) && (v <? 65536)) (h_regs d).

(** The four banks, to speak of the generic helpers together. *)
Inductive Bank := InputRegisters | HoldingRegisters | Coils | DiscreteInputs.

(** The exception, if any, that the read helper of a bank raises at an
    address. *)
Definition read_raises (k : Bank) (addr : Z) (w : World) : option exn :=
  let raised {A} (r : Result A) : option exn :=
    match r with Ok _ => None | Raise e => Some e end in
  match k with
  | InputRegisters => raised (result (read_input addr) w)
  | HoldingRegisters => raised (result (read_holding addr) w)
  | Coils => raised (result (read_coil addr) w)
  | DiscreteInputs => raised (result (read_di addr) w)
  end.

(** A bank of the sizes [_init_banks] writes: 32 registers, 16 booleans. *)
Definition small_bank : DataBank := Modbus.new 16 16 32 32.

(** A bank after the block write of [_init_banks]: [n] cells of [z] from
    address 0, or the bank as it was when it has fewer than [n] cells. *)
Definition blanked {A} (n : nat) (z : A) (bank : list A) : list A :=
  snd (set_cells bank 0 (replicate n z)).

(** The bank that [DataModel.__init__] leaves. *)
Definition initialized (d : DataBank) : DataBank :=
  {| coils := store (blanked 16 false (coils d)) Addresses.COIL_FAN_ENABLE true;
     d_inputs := blanked 16 false (d_inputs d);
     h_regs :=
       store (store (store (store (store (blanked 32 0 (h_regs d))
         Addresses.HR_AIRFLOW_SP 250) Addresses.HR_TEMPERATURE_SP 225)
         Addresses.HR_FAN_MODE_CMD 0) Addresses.HR_FAN_RPM_SP 900)
         Addresses.HR_SIM_ENABLE 1;
     i_regs := blanked 32 0 (i_regs d) |}.

(** No bank of [d'] has another length than in [d]. *)
Definition same_shape (d d' : DataBank) : Prop :=
  length (coils d') = length (coils d) /\
  length (d_inputs d') = length (d_inputs d) /\
  length (h_regs d') = length (h_regs d) /\
  length (i_regs d') = length (i_regs d).

(** If the registers of [d] are 16-bit words, so are those of [d']. *)
Definition words_kept (d d' : DataBank) : Prop := words d -> words d'.

(** The cells [SensorSimulator.update] may write. *)
Definition sensor_footprint : footprint :=
  {| fp_coils := fun _ => False;
     fp_d_inputs := fun a => a = Addresses.DI_FILTER_DIRTY;
     fp_h_regs := fun _ => False;
     fp_i_regs := fun a =>
       a = Addresses.IR_AIRFLOW \/ a = Addresses.IR_TEMPERATURE \/
       a = Addresses.IR_HUMIDITY |}.

(** The cells a pass of the background loop may write. *)
Definition tick_footprint : footprint :=
  {| fp_coils := fun a => a = Addresses.COIL_ALARM_RESET;
     fp_d_inputs := fun _ => True;
     fp_h_regs := fun _ => False;
     fp_i_regs := fun _ => True |}.

(** * Properties *)

(** ** The register store *)

Lemma get_cells_one {A} (bank : list A) (a : Z) :
  get_cells bank a 1 = (fun x => [x]) <$> cell bank a.
Proof.
  unfold get_cells, cell, len.
  destruct (Z.leb_spec 0 a) as [Ha|Ha]; simpl; [|done].
  destruct (Z.leb_spec (a + 1) (Z.of_nat (length bank))) as [Hb|Hb].
  - destruct (lookup_lt_is_Some_2 bank (Z.to_nat a)) as [x Hx]; [lia|].
    rewrite Hx. simpl. f_equal. unfold slice, slice_index, len.
    rewrite !(proj2 (Z.ltb_ge _ _)) by lia.
    rewrite Z.min_l, Z.min_l by lia.
    replace (Z.to_nat (1 + a - a)) with 1%nat by lia.
    by rewrite (drop_S _ _ _ Hx).
  - rewrite lookup_ge_None_2 by lia. done.
Qed.

Lemma set_cells_one {A} (bank : list A) (a : Z) (v : A) :
  snd (set_cells bank a [v]) = store bank a v.
Proof.
  unfold set_cells, store. change (len [v]) with 1. unfold len.
  destruct (Z.leb_spec 0 a) as [Ha|Ha]; simpl; [|done].
  destruct (Z.leb_spec (a + 1) (Z.of_nat (length bank))) as [Hb|Hb];
    simpl; [done|].
  by rewrite list_insert_ge by lia.
Qed.

Lemma length_store {A} (bank : list A) a v :
  length (store bank a v) = length bank.
Proof. unfold store. destruct (0 <=? a); [apply length_insert|done]. Qed.

Lemma cell_store_eq {A} (bank : list A) a v :
  is_Some (cell bank a) -> cell (store bank a v) a = Some v.
Proof.
  unfold cell, store. destruct (0 <=? a); [|by intros [? ?]].
  intros H. apply list_lookup_insert_eq. by apply lookup_lt_is_Some.
Qed.

Lemma cell_store_ne {A} (bank : list A) a b v :
  a <> b -> cell (store bank a v) b = cell bank b.
Proof.
  unfold cell, store. intros Hab.
  destruct (Z.leb_spec 0 b) as [Hb|Hb]; [|done].
  destruct (Z.leb_spec 0 a) as [Ha|Ha]; [|done].
  apply list_lookup_insert_ne. lia.
Qed.

Lemma cell_is_Some {A} (bank : list A) a :
  is_Some (cell bank a) <-> 0 <= a < len bank.
Proof.
  unfold cell, len. destruct (Z.leb_spec 0 a) as [Ha|Ha].
  - rewrite lookup_lt_is_Some. lia.
  - split; [by intros [? ?]|lia].
Qed.

Lemma cell_None {A} (bank : list A) a :
  cell bank a = None <-> a < 0 \/ len bank <= a.
Proof.
  rewrite eq_None_not_Some, cell_is_Some. lia.
Qed.

Lemma store_outside {A} (bank : list A) a v :
  cell bank a = None -> store bank a v = bank.
Proof.
  rewrite cell_None. unfold store, len. intros H.
  destruct (Z.leb_spec 0 a) as [Ha|Ha]; [|done].
  apply list_insert_ge. lia.
Qed.

(** ** The generic helpers, cell by cell *)

Lemma read_input_cell a w :
  read_input a w =
    match cell (i_regs (db w)) a with
    | Some v => (Ok v, w)
    | None => (Raise (IndexError
                 ("Input register address out of range: " +:+ pretty a)), w)
    end.
Proof.
  unfold read_input, get_input_registers. rewrite get_cells_one.
  by destruct (cell _ a).
Qed.

Lemma read_holding_cell a w :
  read_holding a w =
    match cell (h_regs (db w)) a with
    | Some v => (Ok v, w)
    | None => (Raise (IndexError
                 ("Holding register address out of range: " +:+ pretty a)), w)
    end.
Proof.
  unfold read_holding, get_holding_registers. rewrite get_cells_one.
  by destruct (cell _ a).
Qed.

Lemma read_coil_cell a w :
  read_coil a w =
    match cell (coils (db w)) a with
    | Some v => (Ok v, w)
    | None => (Raise (IndexError
                 ("Coil address out of range: " +:+ pretty a)), w)
    end.
Proof.
  unfold read_coil, get_coils. rewrite get_cells_one.
  by destruct (cell _ a).
Qed.

Lemma read_di_cell a w :
  read_di a w =
    match cell (d_inputs (db w)) a with
    | Some v => (Ok v, w)
    | None => (Raise (IndexError
                 ("Discrete input address out of range: " +:+ pretty a)), w)
    end.
Proof.
  unfold read_di, get_discrete_inputs. rewrite get_cells_one.
  by destruct (cell _ a).
Qed.

Lemma write_input_cell a v w :
  write_input a v w =
    (Ok tt, set_db {| coils := coils (db w); d_inputs := d_inputs (db w);
                      h_regs := h_regs (db w);
                      i_regs := store (i_regs (db w)) a (word v) |} w).
Proof.
  unfold write_input, set_input_registers. simpl fmap.
  rewrite <- set_cells_one. by destruct (set_cells _ _ _).
Qed.

Lemma write_holding_cell a v w :
  write_holding a v w =
    (Ok tt, set_db {| coils := coils (db w); d_inputs := d_inputs (db w);
                      h_regs := store (h_regs (db w)) a (word v);
                      i_regs := i_regs (db w) |} w).
Proof.
  unfold write_holding, set_holding_registers. simpl fmap.
  rewrite <- set_cells_one. by destruct (set_cells _ _ _).
Qed.

Lemma write_coil_cell a v w :
  write_coil a v w =
    (Ok tt, set_db {| coils := store (coils (db w)) a v;
                      d_inputs := d_inputs (db w);
                      h_regs := h_regs (db w); i_regs := i_regs (db w) |} w).
Proof.
  unfold write_coil, set_coils.
  rewrite <- set_cells_one. by destruct (set_cells _ _ _).
Qed.

Lemma write_di_cell a v w :
  write_di a v w =
    (Ok tt, set_db {| coils := coils (db w);
                      d_inputs := store (d_inputs (db w)) a v;
                      h_regs := h_regs (db w); i_regs := i_regs (db w) |} w).
Proof.
  unfold write_di, set_discrete_inputs.
  rewrite <- set_cells_one. by destruct (set_cells _ _ _).
Qed.

(** ** Footprints: which cells a computation may change *)

#[export] Instance bank_agree_preorder {A} P : PreOrder (@bank_agree A P).
Proof.
  split.
  - by intros b.
  - intros b1 b2 b3 [Hl Hc] [Hl' Hc']. split; [congruence|].
    intros a Ha. by rewrite Hc', Hc.
Qed.

#[export] Instance agree_off_preorder fp : PreOrder (agree_off fp).
Proof.
  split.
  - by intros d.
  - intros d1 d2 d3 (Hc & Hd & Hh & Hi) (Hc' & Hd' & Hh' & Hi').
    split; [by etrans|]. split; [by etrans|]. split; by etrans.
Qed.

Lemma store_agree {A} (P : Z -> Prop) (bank : list A) a v :
  P a -> bank_agree P bank (store bank a v).
Proof.
  intros Ha. split; [apply length_store|].
  intros b Hb. apply cell_store_ne. by intros ->.
Qed.

Section keeps.
Context (R : DataBank -> DataBank -> Prop) `{!PreOrder R}.

Lemma keeps_ret {A} (a : A) : keeps R (ret a).
Proof. intros w. reflexivity. Qed.

Lemma keeps_raise {A} e : keeps R (raise (A := A) e).
Proof. intros w. reflexivity. Qed.

Lemma keeps_bind {A B} (m : M A) (f : A -> M B) :
  keeps R m -> (forall a, keeps R (f a)) -> keeps R (bind m f).
Proof.
  intros Hm Hf w. specialize (Hm w). unfold exec, bind in *.
  destruct (m w) as [[a|e] w1]; simpl in *; [|done].
  etrans; [exact Hm|apply (Hf a w1)].
Qed.

Lemma keeps_randint a b : keeps R (randint a b).
Proof. intros w. reflexivity. Qed.

Lemma keeps_read_input a : keeps R (read_input a).
Proof.
  intros w. unfold exec. rewrite read_input_cell.
  destruct (cell _ a); reflexivity.
Qed.

Lemma keeps_read_holding a : keeps R (read_holding a).
Proof.
  intros w. unfold exec. rewrite read_holding_cell.
  destruct (cell _ a); reflexivity.
Qed.

Lemma keeps_read_coil a : keeps R (read_coil a).
Proof.
  intros w. unfold exec. rewrite read_coil_cell.
  destruct (cell _ a); reflexivity.
Qed.

Lemma keeps_read_di a : keeps R (read_di a).
Proof.
  intros w. unfold exec. rewrite read_di_cell.
  destruct (cell _ a); reflexivity.
Qed.

Lemma keeps_int_mul_0_6 n : keeps R (int_mul_0_6 n).
Proof.
  intros w. unfold exec, int_mul_0_6.
  destruct (int_of_float _); reflexivity.
Qed.
End keeps.

Section footprint.
Context (fp : footprint).

Lemma keeps_write_input a v :
  fp_i_regs fp a -> keeps (agree_off fp) (write_input a v).
Proof.
  intros Ha w. unfold exec. rewrite write_input_cell. simpl.
  unfold agree_off; simpl. split_and!; try done; by apply store_agree.
Qed.

Lemma keeps_write_holding a v :
  fp_h_regs fp a -> keeps (agree_off fp) (write_holding a v).
Proof.
  intros Ha w. unfold exec. rewrite write_holding_cell. simpl.
  unfold agree_off; simpl. split_and!; try done; by apply store_agree.
Qed.

Lemma keeps_write_coil a v :
  fp_coils fp a -> keeps (agree_off fp) (write_coil a v).
Proof.
  intros Ha w. unfold exec. rewrite write_coil_cell. simpl.
  unfold agree_off; simpl. split_and!; try done; by apply store_agree.
Qed.

Lemma keeps_write_di a v :
  fp_d_inputs fp a -> keeps (agree_off fp) (write_di a v).
Proof.
  intros Ha w. unfold exec. rewrite write_di_cell. simpl.
  unfold agree_off; simpl. split_and!; try done; by apply store_agree.
Qed.
End footprint.

(** Proves [keeps (agree_off fp) m] for a computation built from binds,
    branches and the generic helpers, leaving the membership of each
    written address in the footprint to [simpl; auto]. *)
Ltac keeps_tac :=
  repeat first
    [ apply keeps_bind; [apply _| |intros ?]
    | apply keeps_ret; apply _
    | apply keeps_raise; apply _
    | apply keeps_randint; apply _
    | apply keeps_read_input; apply _
    | apply keeps_read_holding; apply _
    | apply keeps_read_coil; apply _
    | apply keeps_read_di; apply _
    | apply keeps_int_mul_0_6; apply _
    | apply keeps_write_input
    | apply keeps_write_holding
    | apply keeps_write_coil
    | apply keeps_write_di
    | match goal with
      | |- keeps _ (if ?b then _ else _) => destruct b
      | |- keeps _ (match ?b with _ => _ end) => destruct b
      end
    | progress (simpl; auto; lia) ].

Lemma keeps_FanController_update :
  keeps (agree_off fan_footprint) FanController_update.
Proof.
  unfold FanController_update, fan_commanded_state, fan_rpm_actual,
    set_fan_state, set_fan_rpm, set_fault, consume_alarm_reset,
    fan_enable, get_fan_mode_cmd, fan_high_requested, get_fan_rpm_sp.
  keeps_tac.
Qed.

(** ** [int(rpm_sp * 0.6)] on 16-bit setpoints *)

Lemma all_from_spec fuel z p :
  all_from fuel z p = true ->
  forall x, z <= x < z + Z.of_nat fuel -> p x = true.
Proof.
  revert z. induction fuel as [|k IH]; intros z H x Hx; [lia|].
  simpl in H. apply andb_prop in H as [Hz Hk].
  destruct (Z.eq_dec x z) as [->|Hne]; [done|].
  apply (IH (z + 1)); [done|lia].
Qed.

(** The binary64 product, truncated, is [floor(3 * n / 5)] at each of the
    65536 setpoints a holding register can hold. *)
Lemma int_of_float_0_6_all :
  all_from (Z.to_nat 65536) 0
    (fun n =>
       match int_of_float (PrimFloat.mul (float_of_int n) 0.6%float) with
       | Some v => v =? 3 * n / 5
       | None => false
       end) = true.
Proof. vm_compute. reflexivity. Qed.

Lemma int_mul_0_6_word n w :
  0 <= n < 65536 -> int_mul_0_6 n w = (Ok (3 * n / 5), w).
Proof.
  intros Hn. unfold int_mul_0_6.
  pose proof (all_from_spec _ _ _ int_of_float_0_6_all n) as H.
  simpl in H. specialize (H ltac:(lia)).
  destruct (int_of_float _) as [v|]; [|done].
  apply Z.eqb_eq in H. by subst v.
Qed.

(** ** Running the semantic accessors *)

Lemma fan_state_of_range en mode hi :
  fan_state_of en mode hi = 0 \/ fan_state_of en mode hi = 1 \/
  fan_state_of en mode hi = 2.
Proof.
  unfold fan_state_of. destruct en; simpl; [|by left].
  destruct (Z.eqb_spec mode 1) as [->|?]; simpl; [by right; left|].
  destruct (Z.eqb_spec mode 2) as [->|?]; simpl; [by right; right|].
  destruct hi; auto.
Qed.

Lemma word_small v : 0 <= v < 65536 -> word v = v.
Proof.
  intros Hv. unfold word. change 65535 with (Z.ones 16).
  rewrite Z.land_ones by lia. apply Z.mod_small. lia.
Qed.

Lemma word_range v : 0 <= word v < 65536.
Proof.
  unfold word. change 65535 with (Z.ones 16).
  rewrite Z.land_ones by lia. apply Z.mod_pos_bound. lia.
Qed.

Lemma fan_commanded_state_run w en mode hi :
  cell (coils (db w)) Addresses.COIL_FAN_ENABLE = Some en ->
  cell (h_regs (db w)) Addresses.HR_FAN_MODE_CMD = Some mode ->
  cell (coils (db w)) Addresses.COIL_FAN_HIGH_REQ = Some hi ->
  fan_commanded_state w = (Ok (fan_state_of en mode hi), w).
Proof.
  intros Hen Hmode Hhi.
  unfold fan_commanded_state, fan_state_of, fan_enable, get_fan_mode_cmd,
    fan_high_requested, bind.
  rewrite read_coil_cell, Hen. destruct en; simpl; [|done].
  rewrite read_holding_cell, Hmode.
  destruct ((mode =? 1) || (mode =? 2)); [done|].
  by rewrite read_coil_cell, Hhi.
Qed.

Lemma set_fan_state_run state w :
  set_fan_state state w =
    (Ok tt,
     set_db {| coils := coils (db w);
               d_inputs := store (d_inputs (db w)) Addresses.DI_FAN_RUNNING
                                 (0 <? state);
               h_regs := h_regs (db w);
               i_regs := store (i_regs (db w)) Addresses.IR_FAN_STATE
                               (word state) |} w).
Proof.
  unfold set_fan_state, bind. rewrite write_input_cell, write_di_cell.
  done.
Qed.

Lemma fan_rpm_actual_run state sp w :
  0 <= sp < 65536 ->
  fan_rpm_actual state sp w =
    (Ok (rpm_of state sp (randoms w (draws w))),
     if state =? 0 then w
     else {| db := db w; randoms := randoms w; draws := S (draws w) |}).
Proof.
  intros Hsp. unfold fan_rpm_actual, rpm_of, bind.
  destruct (state =? 0); [done|].
  destruct (state =? 1); [|done].
  by rewrite int_mul_0_6_word.
Qed.

Lemma consume_alarm_reset_run w reset :
  cell (coils (db w)) Addresses.COIL_ALARM_RESET = Some reset ->
  consume_alarm_reset w =
    (Ok reset,
     if reset then
       set_db {| coils := store (coils (db w)) Addresses.COIL_ALARM_RESET
                                false;
                 d_inputs := d_inputs (db w);
                 h_regs := h_regs (db w); i_regs := i_regs (db w) |} w
     else w).
Proof.
  intros H. unfold consume_alarm_reset, bind.
  rewrite read_coil_cell, H. destruct reset; [|done].
  by rewrite write_coil_cell.
Qed.

(** One [FanController.update] in closed form, for a bank whose command
    cells exist and whose RPM setpoint is a 16-bit word. *)
Lemma FanController_update_run w en mode hi sp reset :
  cell (coils (db w)) Addresses.COIL_FAN_ENABLE = Some en ->
  cell (h_regs (db w)) Addresses.HR_FAN_MODE_CMD = Some mode ->
  cell (coils (db w)) Addresses.COIL_FAN_HIGH_REQ = Some hi ->
  cell (h_regs (db w)) Addresses.HR_FAN_RPM_SP = Some sp ->
  cell (coils (db w)) Addresses.COIL_ALARM_RESET = Some reset ->
  0 <= sp < 65536 ->
  let state := fan_state_of en mode hi in
  let rpm := rpm_of state sp (randoms w (draws w)) in
  let fault := (0 <? state) && (rpm <? 100) in
  FanController_update w =
    (Ok tt,
     {| db :=
          {| coils :=
               if reset
               then store (coils (db w)) Addresses.COIL_ALARM_RESET false
               else coils (db w);
             d_inputs :=
               let d1 := store (d_inputs (db w)) Addresses.DI_FAN_RUNNING
                               (0 <? state) in
               let d2 := store d1 Addresses.DI_FAN_FAULT fault in
               if reset then store d2 Addresses.DI_FAN_FAULT false else d2;
             h_regs := h_regs (db w);
             i_regs :=
               store (store (i_regs (db w)) Addresses.IR_FAN_STATE
                            (word state))
                     Addresses.IR_FAN_RPM (word (Z.max 0 rpm)) |};
        randoms := randoms w;
        draws := if state =? 0 then draws w else S (draws w) |}).
Proof.
  intros Hen Hmode Hhi Hsp Hreset Hword state rpm fault.
  unfold FanController_update. unfold bind at 1.
  rewrite (fan_commanded_state_run w en mode hi) by done. fold state.
  unfold bind at 1. rewrite set_fan_state_run.
  unfold bind at 1, get_fan_rpm_sp. rewrite read_holding_cell. simpl.
  rewrite Hsp. unfold bind at 1. rewrite fan_rpm_actual_run by done.
  simpl. fold rpm.
  unfold bind at 1, set_fan_rpm. rewrite write_input_cell.
  unfold bind at 1, set_fault. rewrite write_di_cell.
  unfold bind at 1.
  rewrite (consume_alarm_reset_run _ reset)
    by (by destruct (state =? 0)).
  destruct reset; [rewrite write_di_cell|]; unfold ret;
    by destruct (state =? 0).
Qed.

(** ** Reads as observations *)

Lemma read_input_Ok a w v :
  result (read_input a) w = Ok v <-> cell (i_regs (db w)) a = Some v.
Proof.
  unfold result. rewrite read_input_cell.
  destruct (cell _ a); simpl; split; congruence.
Qed.

Lemma read_holding_Ok a w v :
  result (read_holding a) w = Ok v <-> cell (h_regs (db w)) a = Some v.
Proof.
  unfold result. rewrite read_holding_cell.
  destruct (cell _ a); simpl; split; congruence.
Qed.

Lemma read_coil_Ok a w v :
  result (read_coil a) w = Ok v <-> cell (coils (db w)) a = Some v.
Proof.
  unfold result. rewrite read_coil_cell.
  destruct (cell _ a); simpl; split; congruence.
Qed.

Lemma read_di_Ok a w v :
  result (read_di a) w = Ok v <-> cell (d_inputs (db w)) a = Some v.
Proof.
  unfold result. rewrite read_di_cell.
  destruct (cell _ a); simpl; split; congruence.
Qed.

Lemma exec_bind_Ok {A B} (m : M A) (f : A -> M B) w a w1 :
  m w = (Ok a, w1) -> exec (bind m f) w = exec (f a) w1.
Proof. intros H. unfold exec, bind. by rewrite H. Qed.


Lemma sized_cells d :
  sized d ->
  (forall a, 0 <= a < 5 -> is_Some (cell (i_regs d) a)) /\
  (forall a, 0 <= a < 5 -> is_Some (cell (h_regs d) a)) /\
  (forall a, 0 <= a < 3 -> is_Some (cell (coils d) a)) /\
  (forall a, 0 <= a < 3 -> is_Some (cell (d_inputs d) a)).
Proof.
  intros (Hi & Hh & Hc & Hd).
  split_and!; intros a Ha; apply cell_is_Some; lia.
Qed.

(** The state and running cells that [FanController.update] leaves are the
    ones its [set_fan_state] call wrote, whatever happens afterwards. *)
Lemma FanController_update_state_cells w en mode hi :
  cell (coils (db w)) Addresses.COIL_FAN_ENABLE = Some en ->
  cell (h_regs (db w)) Addresses.HR_FAN_MODE_CMD = Some mode ->
  cell (coils (db w)) Addresses.COIL_FAN_HIGH_REQ = Some hi ->
  let w' := exec FanController_update w in
  let state := fan_state_of en mode hi in
  cell (i_regs (db w')) Addresses.IR_FAN_STATE =
    cell (store (i_regs (db w)) Addresses.IR_FAN_STATE (word state))
         Addresses.IR_FAN_STATE /\
  cell (d_inputs (db w')) Addresses.DI_FAN_RUNNING =
    cell (store (d_inputs (db w)) Addresses.DI_FAN_RUNNING (0 <? state))
         Addresses.DI_FAN_RUNNING.
Proof.
  intros Hen Hmode Hhi w' state. subst w'.
  unfold FanController_update.
  rewrite (exec_bind_Ok _ _ _ _ _ (fan_commanded_state_run w en mode hi
                                     Hen Hmode Hhi)).
  fold state.
  rewrite (exec_bind_Ok _ _ _ _ _ (set_fan_state_run state w)).
  match goal with
  | |- context [exec ?m ?w2] =>
      assert (keeps (agree_off fan_tail_footprint) m) as Hk
        by (unfold fan_rpm_actual, set_fan_rpm, set_fault,
              consume_alarm_reset, get_fan_rpm_sp; keeps_tac);
      destruct (Hk w2) as (_ & [_ Hd] & _ & [_ Hi])
  end.
  split; [apply Hi|apply Hd]; simpl; unfold Addresses.IR_FAN_STATE,
    Addresses.IR_FAN_RPM, Addresses.DI_FAN_RUNNING, Addresses.DI_FAN_FAULT;
    lia.
Qed.

(** * The claims *)

(** C1. One [FanController.update] derives the fan state with a fixed
    precedence and writes it to the fan-state input register (input
    register 4): [OFF] (0) when the fan-enable coil (coil 0) is false,
    whatever the other inputs; otherwise the fan-mode-cmd holding register
    (holding register 2) when it holds 1 or 2; otherwise [HIGH] (2) when
    the fan-high-request coil (coil 1) is true and [LOW] (1) when it is
    false.  The inputs and the result are the cells of the banks
    themselves. *)
Theorem fan_state_precedence w (en : bool) (mode : Z) (hi : bool) :
  sized (db w) ->
  coils (db w) !! 0%nat = Some en ->
  h_regs (db w) !! 2%nat = Some mode ->
  coils (db w) !! 1%nat = Some hi ->
  i_regs (db (exec FanController_update w)) !! 4%nat =
    Some (if negb en then 0
          else if (mode =? 1) || (mode =? 2) then mode
          else if hi then 2 else 1).
Proof.
  intros Hs Hen Hmode Hhi.
  change (cell (coils (db w)) Addresses.COIL_FAN_ENABLE = Some en) in Hen.
  change (cell (h_regs (db w)) Addresses.HR_FAN_MODE_CMD = Some mode)
    in Hmode.
  change (cell (coils (db w)) Addresses.COIL_FAN_HIGH_REQ = Some hi) in Hhi.
  change (cell (i_regs (db (exec FanController_update w)))
               Addresses.IR_FAN_STATE = Some (fan_state_of en mode hi)).
  destruct (FanController_update_state_cells w en mode hi Hen Hmode Hhi)
    as [-> _].
  rewrite cell_store_eq by (apply sized_cells; [done|done]).
  f_equal. apply word_small.
  destruct (fan_state_of_range en mode hi) as [H|[H|H]]; rewrite H; lia.
Qed.

Lemma bank_agree_nothing {A} (b b' : list A) :
  bank_agree (fun _ => False) b b' -> b' = b.
Proof.
  intros [_ H]. apply list_eq. intros i.
  specialize (H (Z.of_nat i) ltac:(tauto)). unfold cell in H.
  rewrite (proj2 (Z.leb_le 0 (Z.of_nat i))), Nat2Z.id in H by lia. done.
Qed.

#[export] Instance reset_kept_or_cleared_preorder :
  PreOrder reset_kept_or_cleared.
Proof.
  split.
  - intros d. by left.
  - intros d1 d2 d3 H12 H23. unfold reset_kept_or_cleared in *.
    destruct H23 as [-> | ->]; [done|by right].
Qed.

Lemma FanController_update_reset_coil :
  keeps reset_kept_or_cleared FanController_update.
Proof.
  assert (forall a v, keeps reset_kept_or_cleared (write_input a v)) as Hwi.
  { intros a v w. unfold exec. rewrite write_input_cell. by left. }
  assert (forall a v, keeps reset_kept_or_cleared (write_di a v)) as Hwd.
  { intros a v w. unfold exec. rewrite write_di_cell. by left. }
  assert (keeps reset_kept_or_cleared
            (write_coil Addresses.COIL_ALARM_RESET false)) as Hwc.
  { intros w. unfold exec. rewrite write_coil_cell. simpl.
    destruct (cell (coils (db w)) Addresses.COIL_ALARM_RESET) eqn:E.
    - right. by apply cell_store_eq.
    - left. by rewrite store_outside. }
  unfold FanController_update, fan_commanded_state, fan_rpm_actual,
    set_fan_state, set_fan_rpm, set_fault, consume_alarm_reset,
    fan_enable, get_fan_mode_cmd, fan_high_requested, get_fan_rpm_sp.
  repeat first
    [ apply keeps_bind; [apply _| |intros ?]
    | apply Hwi | apply Hwd | apply Hwc
    | apply keeps_ret; apply _
    | apply keeps_randint; apply _
    | apply keeps_read_holding; apply _
    | apply keeps_read_coil; apply _
    | apply keeps_int_mul_0_6; apply _
    | match goal with
      | |- keeps _ (if ?b then _ else _) => destruct b
      end ].
Qed.

(** C10. Whatever the register map holds, and whether the update returns
    or raises, [FanController.update] leaves every holding register as it
    was, every coil but alarm-reset, every discrete input but fan-fault and
    fan-running, and every input register but fan-state and fan-RPM; the
    alarm-reset coil is unchanged or has been cleared to false. *)
Theorem fan_update_frame w :
  let d := db w in
  let d' := db (exec FanController_update w) in
  h_regs d' = h_regs d /\
  length (coils d') = length (coils d) /\
  length (d_inputs d') = length (d_inputs d) /\
  length (i_regs d') = length (i_regs d) /\
  (forall a, a <> Addresses.COIL_ALARM_RESET ->
             cell (coils d') a = cell (coils d) a) /\
  (cell (coils d') Addresses.COIL_ALARM_RESET =
     cell (coils d) Addresses.COIL_ALARM_RESET \/
   cell (coils d') Addresses.COIL_ALARM_RESET = Some false) /\
  (forall a, a <> Addresses.DI_FAN_FAULT -> a <> Addresses.DI_FAN_RUNNING ->
             cell (d_inputs d') a = cell (d_inputs d) a) /\
  (forall a, a <> Addresses.IR_FAN_STATE -> a <> Addresses.IR_FAN_RPM ->
             cell (i_regs d') a = cell (i_regs d) a).
Proof.
  intros d d'.
  destruct (keeps_FanController_update w)
    as ([Hlc Hc] & [Hld Hd] & Hh & [Hli Hi]).
  split_and!; try done.
  - by apply bank_agree_nothing.
  - apply (FanController_update_reset_coil w).
  - intros a H1 H2. apply Hd. simpl. tauto.
  - intros a H1 H2. apply Hi. simpl. tauto.
Qed.

(** C2. After one [FanController.update] the fan-fault input is false when
    the alarm-reset coil was true at the start of the tick, whatever the
    derived RPM; otherwise it is true iff the derived state is not [OFF]
    and the actual RPM, clamped to be non-negative, is below 100.  The
    reset is consumed by the same update. *)
Theorem fan_fault_reset_final_say w (en : bool) (mode : Z) (hi : bool)
    (sp : Z) (reset : bool) :
  sized (db w) ->
  result fan_enable w = Ok en ->
  result get_fan_mode_cmd w = Ok mode ->
  result fan_high_requested w = Ok hi ->
  result get_fan_rpm_sp w = Ok sp ->
  0 <= sp < 65536 ->
  result (read_coil Addresses.COIL_ALARM_RESET) w = Ok reset ->
  let state := fan_state_of en mode hi in
  let rpm := Z.max 0 (rpm_of state sp (randoms w (draws w))) in
  let w' := exec FanController_update w in
  result (read_di Addresses.DI_FAN_FAULT) w' =
    Ok (if reset then false else negb (state =? 0) && (rpm <? 100)) /\
  result (read_coil Addresses.COIL_ALARM_RESET) w' = Ok false.
Proof.
  intros Hs Hen Hmode Hhi Hsp Hword Hreset state rpm w'.
  apply read_coil_Ok in Hen, Hhi, Hreset. apply read_holding_Ok in Hmode, Hsp.
  destruct (sized_cells _ Hs) as (_ & _ & Hc & Hd).
  subst w'. unfold exec.
  rewrite (FanController_update_run w en mode hi sp reset) by done.
  fold state. simpl. split.
  - apply read_di_Ok. simpl.
    assert (is_Some (cell (store (d_inputs (db w)) Addresses.DI_FAN_RUNNING
                                 (0 <? state)) Addresses.DI_FAN_FAULT)) as H1.
    { rewrite cell_store_ne by done. by apply Hd. }
    destruct reset.
    + apply cell_store_eq. rewrite cell_store_eq; [by eexists|done].
    + rewrite cell_store_eq by done. f_equal. f_equal.
      * destruct (fan_state_of_range en mode hi) as [H|[H|H]];
          fold state in H; by rewrite H.
      * subst rpm. destruct (Z.ltb_spec (rpm_of state sp (randoms w (draws w))) 100);
          symmetry; [apply Z.ltb_lt|apply Z.ltb_ge]; lia.
  - apply read_coil_Ok. simpl. destruct reset; [|done].
    apply cell_store_eq. by apply Hc.
Qed.

(** C3. [consume_alarm_reset] returns the value of the alarm-reset coil and
    leaves the coil false.  So once the coil has been set, the first call
    returns true and every later call returns false. *)
Theorem consume_alarm_reset_once w :
  sized (db w) ->
  (forall b, result (read_coil Addresses.COIL_ALARM_RESET) w = Ok b ->
     result consume_alarm_reset w = Ok b /\
     result (read_coil Addresses.COIL_ALARM_RESET)
            (exec consume_alarm_reset w) = Ok false) /\
  let w1 := exec (write_coil Addresses.COIL_ALARM_RESET true) w in
  result consume_alarm_reset w1 = Ok true /\
  forall n : nat,
    let wn := Nat.iter (S n) (exec consume_alarm_reset) w1 in
    result (read_coil Addresses.COIL_ALARM_RESET) wn = Ok false /\
    result consume_alarm_reset wn = Ok false.
Proof.
  intros Hs. destruct (sized_cells _ Hs) as (_ & _ & Hc & _).
  assert (forall w b,
            cell (coils (db w)) Addresses.COIL_ALARM_RESET = Some b ->
            result consume_alarm_reset w = Ok b /\
            cell (coils (db (exec consume_alarm_reset w)))
                 Addresses.COIL_ALARM_RESET = Some false) as Hone.
  { intros w2 b Hb. unfold result, exec.
    rewrite (consume_alarm_reset_run w2 b Hb). simpl. split; [done|].
    destruct b; [|done]. simpl. apply cell_store_eq. by rewrite Hb. }
  split.
  - intros b Hb. apply read_coil_Ok in Hb.
    destruct (Hone w b Hb) as [H1 H2]. split; [done|by apply read_coil_Ok].
  - intros w1.
    assert (cell (coils (db w1)) Addresses.COIL_ALARM_RESET = Some true)
      as Hset.
    { subst w1. unfold exec. rewrite write_coil_cell. simpl.
      apply cell_store_eq. by apply Hc. }
    split; [by apply (Hone w1 true)|].
    assert (forall n,
              cell (coils (db (Nat.iter (S n) (exec consume_alarm_reset) w1)))
                   Addresses.COIL_ALARM_RESET = Some false) as Hiter.
    { induction n as [|n IH].
      - simpl. by apply (Hone w1 true).
      - change (Nat.iter (S (S n)) (exec consume_alarm_reset) w1)
          with (exec consume_alarm_reset
                  (Nat.iter (S n) (exec consume_alarm_reset) w1)).
        by apply (Hone _ false). }
    intros n wn. split.
    + apply read_coil_Ok. apply Hiter.
    + by apply (Hone wn false), Hiter.
Qed.

(** C4 (amended). For every state [s] in {0, 1, 2}, [set_fan_state s]
    leaves [s] in the fan-state register (input register 4) and [s > 0] in
    the fan-running input (discrete input 2), in the same call.  After one
    [FanController.update] the fan-running input is true iff the fan-state
    register is greater than 0, and [SensorSimulator.update] changes
    neither cell.  The cells are those of the banks themselves. *)
Theorem fan_state_running_consistent w :
  sized (db w) ->
  (forall s, s = 0 \/ s = 1 \/ s = 2 ->
     let d' := db (exec (set_fan_state s) w) in
     i_regs d' !! 4%nat = Some s /\
     d_inputs d' !! 2%nat = Some (0 <? s)) /\
  (exists s r,
     let d' := db (exec FanController_update w) in
     i_regs d' !! 4%nat = Some s /\
     d_inputs d' !! 2%nat = Some r /\
     (r = true <-> 0 < s)) /\
  (let d' := db (exec SensorSimulator_update w) in
   i_regs d' !! 4%nat = i_regs (db w) !! 4%nat /\
   d_inputs d' !! 2%nat = d_inputs (db w) !! 2%nat).
Proof.
  intros Hs. destruct (sized_cells _ Hs) as (Hi & Hh & Hc & Hd).
  split_and!.
  - intros s Hrange d'. subst d'. unfold exec. rewrite set_fan_state_run.
    split.
    + change (cell (store (i_regs (db w)) Addresses.IR_FAN_STATE (word s))
                   Addresses.IR_FAN_STATE = Some s).
      rewrite cell_store_eq by by apply Hi.
      f_equal. apply word_small. lia.
    + change (cell (store (d_inputs (db w)) Addresses.DI_FAN_RUNNING
                          (0 <? s))
                   Addresses.DI_FAN_RUNNING = Some (0 <? s)).
      by rewrite cell_store_eq by by apply Hd.
  - destruct (Hc Addresses.COIL_FAN_ENABLE) as [en Hen]; [done|].
    destruct (Hh Addresses.HR_FAN_MODE_CMD) as [mode Hmode]; [done|].
    destruct (Hc Addresses.COIL_FAN_HIGH_REQ) as [hi Hhi]; [done|].
    exists (fan_state_of en mode hi), (0 <? fan_state_of en mode hi).
    intros d'.
    destruct (FanController_update_state_cells w en mode hi Hen Hmode Hhi)
      as [Hst Hrun].
    split_and!.
    + change (cell (i_regs d') Addresses.IR_FAN_STATE =
                Some (fan_state_of en mode hi)).
      subst d'. rewrite Hst, cell_store_eq by by apply Hi.
      f_equal. apply word_small.
      destruct (fan_state_of_range en mode hi) as [H|[H|H]]; rewrite H; lia.
    + change (cell (d_inputs d') Addresses.DI_FAN_RUNNING =
                Some (0 <? fan_state_of en mode hi)).
      subst d'. by rewrite Hrun, cell_store_eq by by apply Hd.
    + apply Z.ltb_lt.
  - intros d'.
    assert (keeps (agree_off
                     {| fp_coils := fun _ => False;
                        fp_d_inputs := fun a => a = Addresses.DI_FILTER_DIRTY;
                        fp_h_regs := fun _ => False;
                        fp_i_regs := fun a => a = Addresses.IR_TEMPERATURE \/
                                              a = Addresses.IR_HUMIDITY \/
                                              a = Addresses.IR_AIRFLOW |})
                  SensorSimulator_update) as Hk.
    { unfold SensorSimulator_update, get_sim_enabled, set_temperature,
        set_humidity, set_airflow, set_filter_dirty. keeps_tac. }
    destruct (Hk w) as (_ & [_ Hdi] & _ & [_ Hir]). fold d' in Hdi, Hir.
    split.
    + apply (Hir Addresses.IR_FAN_STATE). simpl.
      unfold Addresses.IR_TEMPERATURE, Addresses.IR_HUMIDITY,
        Addresses.IR_AIRFLOW, Addresses.IR_FAN_STATE. lia.
    + apply (Hdi Addresses.DI_FAN_RUNNING). simpl.
      unfold Addresses.DI_FILTER_DIRTY, Addresses.DI_FAN_RUNNING. lia.
Qed.

(** ** Running the sensor simulator *)

Lemma SensorSimulator_update_disabled w v :
  cell (h_regs (db w)) Addresses.HR_SIM_ENABLE = Some v -> v <> 1 ->
  SensorSimulator_update w = (Ok tt, w).
Proof.
  intros Hv Hne. unfold SensorSimulator_update, get_sim_enabled, bind.
  rewrite read_holding_cell, Hv. unfold ret.
  by rewrite (proj2 (Z.eqb_neq v 1)).
Qed.

(** One enabled [SensorSimulator.update] in closed form: the three draws
    are, in order, the temperature, humidity and airflow jitter. *)
Lemma SensorSimulator_update_run w state :
  cell (h_regs (db w)) Addresses.HR_SIM_ENABLE = Some 1 ->
  cell (i_regs (db w)) Addresses.IR_FAN_STATE = Some state ->
  let jt := randoms w (draws w) in
  let jh := randoms w (S (draws w)) in
  let ja := randoms w (S (S (draws w))) in
  let temp :=
    Z.max 150 (Z.min 300 (225 + (if state =? 0 then 30 else -5 * state) + jt)) in
  let airflow :=
    Z.max 0 ((if state =? 0 then 0 else if state =? 1 then 200 else 350) + ja) in
  SensorSimulator_update w =
    (Ok tt,
     {| db :=
          {| coils := coils (db w);
             d_inputs := store (d_inputs (db w)) Addresses.DI_FILTER_DIRTY
                               ((0 <? state) && (airflow <? 100));
             h_regs := h_regs (db w);
             i_regs :=
               store (store (store (i_regs (db w)) Addresses.IR_TEMPERATURE
                                   (word temp))
                            Addresses.IR_HUMIDITY (word (500 + jh)))
                     Addresses.IR_AIRFLOW (word airflow) |};
        randoms := randoms w;
        draws := S (S (S (draws w))) |}).
Proof.
  intros Hen Hst jt jh ja temp airflow.
  unfold SensorSimulator_update, get_sim_enabled.
  unfold bind at 1. unfold bind at 1. rewrite read_holding_cell, Hen.
  unfold ret. cbv beta iota. change (negb (1 =? 1)) with false. cbv iota.
  unfold bind at 1. rewrite read_input_cell, Hst.
  unfold set_temperature, set_humidity, set_airflow, set_filter_dirty.
  cbv beta iota zeta.
  repeat (unfold bind at 1;
          first [rewrite write_input_cell | unfold randint at 1];
          cbv beta iota zeta).
  rewrite write_di_cell. done.
Qed.

Lemma words_cell d :
  words d ->
  (forall a v, cell (i_regs d) a = Some v -> 0 <= v < 65536) /\
  (forall a v, cell (h_regs d) a = Some v -> 0 <= v < 65536).
Proof.
  intros [Hi Hh]. split; intros a v; unfold cell;
    destruct (0 <=? a); try done; intros Hv.
  - by apply (Forall_lookup_1 _ _ _ _ Hi Hv).
  - by apply (Forall_lookup_1 _ _ _ _ Hh Hv).
Qed.

Lemma word_mod v : word v = v mod 65536.
Proof. unfold word. change 65535 with (Z.ones 16). by rewrite Z.land_ones. Qed.


(** C7 (amended). When sim-enable holds 1, one [SensorSimulator.update]
    writes the temperature [225 + (30 if state is OFF else -5 * state) +
    jitter] clamped into [150, 300]: 255, 220 and 215 for states 0, 1 and 2
    with jitter 0, and never outside [150, 300] whatever the jitter. *)
Theorem sensor_temperature_when_enabled w (state : Z) :
  sized (db w) ->
  result (read_holding Addresses.HR_SIM_ENABLE) w = Ok 1 ->
  result (read_input Addresses.IR_FAN_STATE) w = Ok state ->
  let jitter := randoms w (draws w) in
  let temp :=
    Z.max 150 (Z.min 300
      (225 + (if state =? 0 then 30 else -5 * state) + jitter)) in
  let written :=
    result (read_input Addresses.IR_TEMPERATURE)
           (exec SensorSimulator_update w) in
  written = Ok temp /\
  150 <= temp <= 300 /\
  (jitter = 0 -> (state = 0 -> written = Ok 255) /\
                 (state = 1 -> written = Ok 220) /\
                 (state = 2 -> written = Ok 215)).
Proof.
  intros Hs Hen Hst jitter temp written.
  apply read_holding_Ok in Hen. apply read_input_Ok in Hst.
  destruct (sized_cells _ Hs) as (Hi & _ & _ & _).
  assert (150 <= temp <= 300) as Hrange by (subst temp; lia).
  assert (written = Ok temp) as Hw.
  { subst written. unfold exec.
    rewrite (SensorSimulator_update_run w state) by done.
    apply read_input_Ok. simpl.
    rewrite !cell_store_ne by done.
    rewrite cell_store_eq by by apply Hi.
    f_equal. apply word_small. fold jitter temp. lia. }
  split_and!; [done|lia|lia|].
  intros Hj. rewrite Hw. subst temp. rewrite Hj.
  split_and!; intros ->; done.
Qed.

(** C8 (amended). When sim-enable holds 1, after one
    [SensorSimulator.update] the filter-dirty input is true iff the fan
    state read at the start is not [OFF] and the airflow computed in that
    update, [max(0, target + jitter)] with target 0/200/350 for states
    0/1/2, is below 100; with state 0 it is false. *)
Theorem sensor_filter_dirty w (state : Z) :
  sized (db w) -> words (db w) ->
  result (read_holding Addresses.HR_SIM_ENABLE) w = Ok 1 ->
  result (read_input Addresses.IR_FAN_STATE) w = Ok state ->
  let jitter := randoms w (S (S (draws w))) in
  let target :=
    if state =? 0 then 0 else if state =? 1 then 200 else 350 in
  let airflow := Z.max 0 (target + jitter) in
  let dirty :=
    result (read_di Addresses.DI_FILTER_DIRTY)
           (exec SensorSimulator_update w) in
  dirty = Ok (negb (state =? 0) && (airflow <? 100)) /\
  (state = 0 -> dirty = Ok false).
Proof.
  intros Hs Hw Hen Hst jitter target airflow dirty.
  apply read_holding_Ok in Hen. apply read_input_Ok in Hst.
  destruct (sized_cells _ Hs) as (_ & _ & _ & Hd).
  destruct (words_cell _ Hw) as [Hiw _].
  pose proof (Hiw _ _ Hst) as Hstate.
  assert (dirty = Ok (negb (state =? 0) && (airflow <? 100))) as Hdirty.
  { subst dirty. unfold exec.
    rewrite (SensorSimulator_update_run w state) by done.
    apply read_di_Ok. simpl. rewrite cell_store_eq by by apply Hd.
    fold jitter target airflow. f_equal. f_equal.
    destruct (Z.eqb_spec state 0) as [->|Hne]; [done|].
    simpl. apply Z.ltb_lt. lia. }
  split; [done|]. intros ->. by rewrite Hdirty.
Qed.

(** C9. When the sim-enable holding register is 0,
    [SensorSimulator.update] returns without writing: the four banks (and
    the random source) are exactly as before the call. *)
Theorem sensor_disabled_no_writes w :
  result (read_holding Addresses.HR_SIM_ENABLE) w = Ok 0 ->
  SensorSimulator_update w = (Ok tt, w).
Proof.
  intros H. apply read_holding_Ok in H.
  by apply (SensorSimulator_update_disabled w 0).
Qed.

(** ** Out-of-range accesses *)

Lemma write_input_outside a v w :
  cell (i_regs (db w)) a = None -> write_input a v w = (Ok tt, w).
Proof.
  intros H. rewrite write_input_cell, store_outside by done.
  f_equal. by destruct w as [[] ? ?].
Qed.

Lemma write_holding_outside a v w :
  cell (h_regs (db w)) a = None -> write_holding a v w = (Ok tt, w).
Proof.
  intros H. rewrite write_holding_cell, store_outside by done.
  f_equal. by destruct w as [[] ? ?].
Qed.

Lemma write_coil_outside a v w :
  cell (coils (db w)) a = None -> write_coil a v w = (Ok tt, w).
Proof.
  intros H. rewrite write_coil_cell, store_outside by done.
  f_equal. by destruct w as [[] ? ?].
Qed.

Lemma write_di_outside a v w :
  cell (d_inputs (db w)) a = None -> write_di a v w = (Ok tt, w).
Proof.
  intros H. rewrite write_di_cell, store_outside by done.
  f_equal. by destruct w as [[] ? ?].
Qed.

(** ** Concrete runs *)

Lemma fan_state_precedence_witness :
  i_regs (db (exec FanController_update
                (exec (write_coil Addresses.COIL_FAN_HIGH_REQ true)
                      (fresh 0)))) !! 4%nat
  = Some 2.
Proof.
  apply (fan_state_precedence
           (exec (write_coil Addresses.COIL_FAN_HIGH_REQ true) (fresh 0))
           true 0 true).
  - vm_compute. intuition discriminate.
  - vm_compute. reflexivity.
  - vm_compute. reflexivity.
  - vm_compute. reflexivity.
Defined.

Lemma fan_fault_reset_final_say_witness :
  result (read_di Addresses.DI_FAN_FAULT)
         (exec FanController_update faulty_reset) = Ok false /\
  result (read_coil Addresses.COIL_ALARM_RESET)
         (exec FanController_update faulty_reset) = Ok false.
Proof.
  apply (fan_fault_reset_final_say faulty_reset true 1 false 160 true).
  - vm_compute. intuition discriminate.
  - vm_compute. reflexivity.
  - vm_compute. reflexivity.
  - vm_compute. reflexivity.
  - vm_compute. reflexivity.
  - lia.
  - vm_compute. reflexivity.
Defined.

Lemma consume_alarm_reset_once_witness :
  (forall b, result (read_coil Addresses.COIL_ALARM_RESET) (fresh 0) = Ok b ->
     result consume_alarm_reset (fresh 0) = Ok b /\
     result (read_coil Addresses.COIL_ALARM_RESET)
            (exec consume_alarm_reset (fresh 0)) = Ok false) /\
  let w1 := exec (write_coil Addresses.COIL_ALARM_RESET true) (fresh 0) in
  result consume_alarm_reset w1 = Ok true /\
  forall n : nat,
    let wn := Nat.iter (S n) (exec consume_alarm_reset) w1 in
    result (read_coil Addresses.COIL_ALARM_RESET) wn = Ok false /\
    result consume_alarm_reset wn = Ok false.
Proof.
  apply (consume_alarm_reset_once (fresh 0)).
  vm_compute. intuition discriminate.
Defined.

Lemma fan_state_running_consistent_witness :
  (forall s, s = 0 \/ s = 1 \/ s = 2 ->
     let d' := db (exec (set_fan_state s) (fresh 0)) in
     i_regs d' !! 4%nat = Some s /\
     d_inputs d' !! 2%nat = Some (0 <? s)) /\
  (exists s r,
     let d' := db (exec FanController_update (fresh 0)) in
     i_regs d' !! 4%nat = Some s /\
     d_inputs d' !! 2%nat = Some r /\
     (r = true <-> 0 < s)) /\
  (let d' := db (exec SensorSimulator_update (fresh 0)) in
   i_regs d' !! 4%nat = i_regs (db (fresh 0)) !! 4%nat /\
   d_inputs d' !! 2%nat = d_inputs (db (fresh 0)) !! 2%nat).
Proof.
  apply (fan_state_running_consistent (fresh 0)).
  vm_compute. intuition discriminate.
Defined.

(** C4 as stated fails for the generic helpers, which are operations of
    the data model too: on a fresh [DataModel()],
    [write_input(IR_FAN_STATE, 2)] returns normally and leaves 2 in the
    fan-state register while the fan-running input stays false, and a
    following [SensorSimulator.update] leaves it so. *)
Lemma generic_write_splits_state_and_running :
  result (write_input Addresses.IR_FAN_STATE 2) (fresh 0) = Ok tt /\
  i_regs (db (exec (write_input Addresses.IR_FAN_STATE 2) (fresh 0)))
    !! 4%nat = Some 2 /\
  d_inputs (db (exec (write_input Addresses.IR_FAN_STATE 2) (fresh 0)))
    !! 2%nat = Some false /\
  i_regs (db (exec (write_input Addresses.IR_FAN_STATE 2 ;;;
                    SensorSimulator_update) (fresh 0)))
    !! 4%nat = Some 2 /\
  d_inputs (db (exec (write_input Addresses.IR_FAN_STATE 2 ;;;
                      SensorSimulator_update) (fresh 0)))
    !! 2%nat = Some false.
Proof. split_and!; by vm_compute. Qed.

(** C5 (the code departs from the claim). On a fresh [DataModel()], whose
    banks have 65536 cells, the reads at address 65536 raise [IndexError]
    with the bank and the address in the message, but the four writes at
    that address return normally and change nothing. *)
Theorem write_out_of_range_dropped :
  let w := fresh 0 in
  result (read_input 65536) w =
    Raise (IndexError "Input register address out of range: 65536") /\
  result (read_holding 65536) w =
    Raise (IndexError "Holding register address out of range: 65536") /\
  result (read_coil 65536) w =
    Raise (IndexError "Coil address out of range: 65536") /\
  result (read_di 65536) w =
    Raise (IndexError "Discrete input address out of range: 65536") /\
  write_input 65536 7 w = (Ok tt, w) /\
  write_holding 65536 7 w = (Ok tt, w) /\
  write_coil 65536 true w = (Ok tt, w) /\
  write_di 65536 true w = (Ok tt, w).
Proof.
  intros w. split_and!.
  - vm_compute. reflexivity.
  - vm_compute. reflexivity.
  - vm_compute. reflexivity.
  - vm_compute. reflexivity.
  - apply write_input_outside. vm_compute. reflexivity.
  - apply write_holding_outside. vm_compute. reflexivity.
  - apply write_coil_outside. vm_compute. reflexivity.
  - apply write_di_outside. vm_compute. reflexivity.
Qed.



Lemma sensor_temperature_when_enabled_witness :
  let written :=
    result (read_input Addresses.IR_TEMPERATURE)
           (exec SensorSimulator_update (fresh 0)) in
  let temp := Z.max 150 (Z.min 300 (225 + 30 + 0)) in
  written = Ok temp /\
  150 <= temp <= 300 /\
  (0 = 0 -> (0 = 0 -> written = Ok 255) /\
            (0 = 1 -> written = Ok 220) /\
            (0 = 2 -> written = Ok 215)).
Proof.
  apply (sensor_temperature_when_enabled (fresh 0) 0).
  - vm_compute. intuition discriminate.
  - vm_compute. reflexivity.
  - vm_compute. reflexivity.
Defined.

(** C7 as stated fails for a sim-enable other than 0 and 1: with sim-enable
    2, fan state 0 and jitter 0 the update writes no temperature, and the
    register still reads 0 instead of 255. *)
Lemma sensor_temperature_sim_enable_2 :
  result (read_holding Addresses.HR_SIM_ENABLE) sim_two_off = Ok 2 /\
  result (read_input Addresses.IR_FAN_STATE) sim_two_off = Ok 0 /\
  randoms sim_two_off (draws sim_two_off) = 0 /\
  result (read_input Addresses.IR_TEMPERATURE)
         (exec SensorSimulator_update sim_two_off) = Ok 0 /\
  result (read_input Addresses.IR_TEMPERATURE)
         (exec SensorSimulator_update sim_two_off)
    <> Ok (Z.max 150 (Z.min 300 (225 + 30 + 0))).
Proof.
  split_and!; [by vm_compute..|].
  vm_compute. discriminate.
Qed.

Lemma wordsb_words d : wordsb d = true -> words d.
Proof.
  assert (forall l : list Z,
            forallb (fun v => (0 <=? v) && (v <? 65536)) l = true ->
            Forall (fun v => 0 <= v < 65536) l) as H.
  { intros l Hl. apply Forall_forall. intros v Hv.
    rewrite forallb_forall in Hl. apply list_elem_of_In in Hv.
    specialize (Hl v Hv). apply andb_prop in Hl as [H1 H2].
    apply Z.leb_le in H1. apply Z.ltb_lt in H2. lia. }
  unfold wordsb. intros [Hi Hh]%andb_prop. split; by apply H.
Qed.

Lemma sensor_filter_dirty_witness :
  let w := exec (set_fan_state 1) (fresh (-150)) in
  let airflow := Z.max 0 (200 + -150) in
  let dirty :=
    result (read_di Addresses.DI_FILTER_DIRTY)
           (exec SensorSimulator_update w) in
  dirty = Ok (negb (1 =? 0) && (airflow <? 100)) /\
  (1 = 0 -> dirty = Ok false).
Proof.
  apply (sensor_filter_dirty (exec (set_fan_state 1) (fresh (-150))) 1).
  - vm_compute. intuition discriminate.
  - apply wordsb_words. vm_compute. reflexivity.
  - vm_compute. reflexivity.
  - vm_compute. reflexivity.
Defined.

(** C8 as stated fails for a sim-enable other than 0 and 1: with sim-enable
    2, fan state 1 and an airflow jitter of -150 (airflow 50, below 100)
    the update writes nothing and filter-dirty still reads false. *)
Lemma sensor_filter_dirty_sim_enable_2 :
  result (read_holding Addresses.HR_SIM_ENABLE) sim_two_low = Ok 2 /\
  result (read_input Addresses.IR_FAN_STATE) sim_two_low = Ok 1 /\
  randoms sim_two_low (S (S (draws sim_two_low))) = -150 /\
  (Z.max 0 (200 + -150) <? 100) = true /\
  result (read_di Addresses.DI_FILTER_DIRTY)
         (exec SensorSimulator_update sim_two_low) = Ok false.
Proof. split_and!; by vm_compute. Qed.

Lemma sensor_disabled_no_writes_witness :
  SensorSimulator_update sim_off = (Ok tt, sim_off).
Proof.
  apply (sensor_disabled_no_writes sim_off).
  vm_compute. reflexivity.
Defined.

(** * Further properties of the code *)

(** ** data_model.py: generic helpers *)

Lemma cell_lookup {A} (bank : list A) a :
  0 <= a -> cell bank a = bank !! Z.to_nat a.
Proof. intros H. unfold cell. by rewrite (proj2 (Z.leb_le 0 a)). Qed.

(** X1. A read helper never changes the state.  At an address inside the
    bank it returns the cell; at a negative address or one at or past the
    end of the bank it raises [IndexError] with the helper's own message
    followed by the address. *)
Theorem read_helpers_cell_or_IndexError (a : Z) (w : World) :
  (exec (read_input a) w = w /\ exec (read_holding a) w = w /\
   exec (read_coil a) w = w /\ exec (read_di a) w = w) /\
  (0 <= a < len (i_regs (db w)) ->
     exists v, i_regs (db w) !! Z.to_nat a = Some v /\
               result (read_input a) w = Ok v) /\
  (0 <= a < len (h_regs (db w)) ->
     exists v, h_regs (db w) !! Z.to_nat a = Some v /\
               result (read_holding a) w = Ok v) /\
  (0 <= a < len (coils (db w)) ->
     exists v, coils (db w) !! Z.to_nat a = Some v /\
               result (read_coil a) w = Ok v) /\
  (0 <= a < len (d_inputs (db w)) ->
     exists v, d_inputs (db w) !! Z.to_nat a = Some v /\
               result (read_di a) w = Ok v) /\
  (a < 0 \/ len (i_regs (db w)) <= a ->
     result (read_input a) w =
       Raise (IndexError
                ("Input register address out of range: " +:+ pretty a))) /\
  (a < 0 \/ len (h_regs (db w)) <= a ->
     result (read_holding a) w =
       Raise (IndexError
                ("Holding register address out of range: " +:+ pretty a))) /\
  (a < 0 \/ len (coils (db w)) <= a ->
     result (read_coil a) w =
       Raise (IndexError ("Coil address out of range: " +:+ pretty a))) /\
  (a < 0 \/ len (d_inputs (db w)) <= a ->
     result (read_di a) w =
       Raise (IndexError
                ("Discrete input address out of range: " +:+ pretty a))).
Proof.
  unfold exec, result.
  rewrite read_input_cell, read_holding_cell, read_coil_cell, read_di_cell.
  split_and!.
  - by destruct (cell (i_regs _) a).
  - by destruct (cell (h_regs _) a).
  - by destruct (cell (coils _) a).
  - by destruct (cell (d_inputs _) a).
  - intros H. destruct (proj2 (cell_is_Some (i_regs (db w)) a) H) as [v Hv].
    exists v. rewrite Hv. split; [|done]. by rewrite <- cell_lookup by lia.
  - intros H. destruct (proj2 (cell_is_Some (h_regs (db w)) a) H) as [v Hv].
    exists v. rewrite Hv. split; [|done]. by rewrite <- cell_lookup by lia.
  - intros H. destruct (proj2 (cell_is_Some (coils (db w)) a) H) as [v Hv].
    exists v. rewrite Hv. split; [|done]. by rewrite <- cell_lookup by lia.
  - intros H. destruct (proj2 (cell_is_Some (d_inputs (db w)) a) H) as [v Hv].
    exists v. rewrite Hv. split; [|done]. by rewrite <- cell_lookup by lia.
  - intros H. by rewrite (proj2 (cell_None _ a) H).
  - intros H. by rewrite (proj2 (cell_None _ a) H).
  - intros H. by rewrite (proj2 (cell_None _ a) H).
  - intros H. by rewrite (proj2 (cell_None _ a) H).
Qed.

Lemma read_raises_message k a w e :
  read_raises k a w = Some e ->
  e = IndexError
        ((match k with
          | InputRegisters => "Input register address out of range: "
          | HoldingRegisters => "Holding register address out of range: "
          | Coils => "Coil address out of range: "
          | DiscreteInputs => "Discrete input address out of range: "
          end) +:+ pretty a).
Proof.
  unfold read_raises, result. destruct k.
  - rewrite read_input_cell. destruct (cell _ a); simpl; congruence.
  - rewrite read_holding_cell. destruct (cell _ a); simpl; congruence.
  - rewrite read_coil_cell. destruct (cell _ a); simpl; congruence.
  - rewrite read_di_cell. destruct (cell _ a); simpl; congruence.
Qed.

(** X2. The exception of a failed read identifies the bank and the
    address: two read helpers raise the same exception only when they are
    the helper of the same bank called at the same address. *)
Theorem read_exception_identifies_access k a w k' a' w' e :
  read_raises k a w = Some e -> read_raises k' a' w' = Some e ->
  k = k' /\ a = a'.
Proof.
  intros H H'. apply read_raises_message in H, H'. subst e.
  injection H' as H'.
  destruct k, k'; simpl in H'; try discriminate H'.
  all: split; [done|]; simplify_eq; by apply (inj pretty).
Qed.

(** X3. A write helper never raises.  At a negative address or one at or
    past the end of its bank it returns normally and leaves the whole state
    as it was. *)
Theorem write_helpers_outside_are_noops (a : Z) (w : World) :
  (forall v, result (write_input a v) w = Ok tt) /\
  (forall v, result (write_holding a v) w = Ok tt) /\
  (forall v, result (write_coil a v) w = Ok tt) /\
  (forall v, result (write_di a v) w = Ok tt) /\
  (a < 0 \/ len (i_regs (db w)) <= a ->
     forall v, exec (write_input a v) w = w) /\
  (a < 0 \/ len (h_regs (db w)) <= a ->
     forall v, exec (write_holding a v) w = w) /\
  (a < 0 \/ len (coils (db w)) <= a ->
     forall v, exec (write_coil a v) w = w) /\
  (a < 0 \/ len (d_inputs (db w)) <= a ->
     forall v, exec (write_di a v) w = w).
Proof.
  split_and!; try done.
  - intros H v. unfold exec.
    by rewrite write_input_outside by by apply cell_None.
  - intros H v. unfold exec.
    by rewrite write_holding_outside by by apply cell_None.
  - intros H v. unfold exec.
    by rewrite write_coil_outside by by apply cell_None.
  - intros H v. unfold exec.
    by rewrite write_di_outside by by apply cell_None.
Qed.

Lemma read_exception_identifies_access_witness :
  InputRegisters = InputRegisters /\ 40 = 40.
Proof.
  apply (read_exception_identifies_access
           InputRegisters 40
           {| db := small_bank; randoms := fun _ => 0; draws := O |}
           InputRegisters 40
           {| db := small_bank; randoms := fun _ => 0; draws := O |}
           (IndexError "Input register address out of range: 40")).
  - vm_compute. reflexivity.
  - vm_compute. reflexivity.
Defined.

(** X4. Register round trip.  After [write_holding a v] (or [write_input
    a v]) at an address inside the bank, reading [a] returns [v] modulo
    65536, hence [v] itself when it is a 16-bit word; every other cell of
    that bank, and the three other banks, are unchanged. *)
Theorem register_write_read (a v : Z) (w : World) :
  (0 <= a < len (h_regs (db w)) ->
     let w' := exec (write_holding a v) w in
     result (read_holding a) w' = Ok (v mod 65536) /\
     (0 <= v < 65536 -> result (read_holding a) w' = Ok v) /\
     (forall b, b <> a -> read_holding b w' = (result (read_holding b) w, w')) /\
     i_regs (db w') = i_regs (db w) /\ coils (db w') = coils (db w) /\
     d_inputs (db w') = d_inputs (db w)) /\
  (0 <= a < len (i_regs (db w)) ->
     let w' := exec (write_input a v) w in
     result (read_input a) w' = Ok (v mod 65536) /\
     (0 <= v < 65536 -> result (read_input a) w' = Ok v) /\
     (forall b, b <> a -> read_input b w' = (result (read_input b) w, w')) /\
     h_regs (db w') = h_regs (db w) /\ coils (db w') = coils (db w) /\
     d_inputs (db w') = d_inputs (db w)).
Proof.
  split; intros Ha w'; subst w'; unfold exec.
  - rewrite write_holding_cell. simpl.
    assert (result (read_holding a)
              (set_db {| coils := coils (db w); d_inputs := d_inputs (db w);
                         h_regs := store (h_regs (db w)) a (word v);
                         i_regs := i_regs (db w) |} w) = Ok (v mod 65536)) as H.
    { apply read_holding_Ok. simpl. rewrite cell_store_eq, word_mod; [done|].
      by apply cell_is_Some. }
    split_and!; try done.
    + intros Hv. by rewrite H, Z.mod_small.
    + intros b Hb. unfold result. rewrite !read_holding_cell. simpl.
      rewrite cell_store_ne by done. by destruct (cell _ b).
  - rewrite write_input_cell. simpl.
    assert (result (read_input a)
              (set_db {| coils := coils (db w); d_inputs := d_inputs (db w);
                         h_regs := h_regs (db w);
                         i_regs := store (i_regs (db w)) a (word v) |} w)
            = Ok (v mod 65536)) as H.
    { apply read_input_Ok. simpl. rewrite cell_store_eq, word_mod; [done|].
      by apply cell_is_Some. }
    split_and!; try done.
    + intros Hv. by rewrite H, Z.mod_small.
    + intros b Hb. unfold result. rewrite !read_input_cell. simpl.
      rewrite cell_store_ne by done. by destruct (cell _ b).
Qed.

(** X5. Boolean round trip.  After [write_coil a v] (or [write_di a v]) at
    an address inside the bank, reading [a] returns [v]; every other cell
    of that bank, and the three other banks, are unchanged. *)
Theorem boolean_write_read (a : Z) (v : bool) (w : World) :
  (0 <= a < len (coils (db w)) ->
     let w' := exec (write_coil a v) w in
     result (read_coil a) w' = Ok v /\
     (forall b, b <> a -> read_coil b w' = (result (read_coil b) w, w')) /\
     i_regs (db w') = i_regs (db w) /\ h_regs (db w') = h_regs (db w) /\
     d_inputs (db w') = d_inputs (db w)) /\
  (0 <= a < len (d_inputs (db w)) ->
     let w' := exec (write_di a v) w in
     result (read_di a) w' = Ok v /\
     (forall b, b <> a -> read_di b w' = (result (read_di b) w, w')) /\
     i_regs (db w') = i_regs (db w) /\ h_regs (db w') = h_regs (db w) /\
     coils (db w') = coils (db w)).
Proof.
  split; intros Ha w'; subst w'; unfold exec.
  - rewrite write_coil_cell. simpl. split_and!; try done.
    + apply read_coil_Ok. simpl. apply cell_store_eq. by apply cell_is_Some.
    + intros b Hb. unfold result. rewrite !read_coil_cell. simpl.
      rewrite cell_store_ne by done. by destruct (cell _ b).
  - rewrite write_di_cell. simpl. split_and!; try done.
    + apply read_di_Ok. simpl. apply cell_store_eq. by apply cell_is_Some.
    + intros b Hb. unfold result. rewrite !read_di_cell. simpl.
      rewrite cell_store_ne by done. by destruct (cell _ b).
Qed.

(** ** data_model.py: initialization *)

Lemma length_blanked {A} n (z : A) bank :
  length (blanked n z bank) = length bank.
Proof.
  unfold blanked, set_cells. destruct (_ && _); simpl; [|done].
  apply length_inserts.
Qed.

Lemma lookup_blanked {A} n (z : A) bank (i : nat) :
  blanked n z bank !! i =
    if decide ((n <= length bank)%nat /\ (i < n)%nat) then Some z
    else bank !! i.
Proof.
  unfold blanked, set_cells, len. rewrite length_replicate.
  change (0 <=? 0) with true. rewrite Z.add_0_l. cbn [andb].
  change (Z.to_nat 0) with O.
  destruct (Z.leb_spec (Z.of_nat n) (Z.of_nat (length bank))) as [H|H];
    cbn [snd]; case_decide as Hd; try done; try lia.
  - rewrite list_lookup_inserts by (rewrite ?length_replicate; lia).
    apply lookup_replicate_2. lia.
  - rewrite list_lookup_inserts_ge; [done|]. rewrite length_replicate. lia.
Qed.

Lemma lookup_store {A} (bank : list A) a v (i : nat) :
  store bank a v !! i =
    if decide (0 <= a /\ Z.to_nat a = i /\ (i < length bank)%nat) then Some v
    else bank !! i.
Proof.
  unfold store. destruct (Z.leb_spec 0 a) as [Ha|Ha].
  - rewrite list_lookup_insert. repeat case_decide; try done; lia.
  - case_decide; [lia|done].
Qed.

Lemma snd_set_input_registers d a l :
  snd (set_input_registers d a l) =
    {| coils := coils d; d_inputs := d_inputs d; h_regs := h_regs d;
       i_regs := snd (set_cells (i_regs d) a (word <$> l)) |}.
Proof. unfold set_input_registers. by destruct (set_cells _ _ _). Qed.

Lemma snd_set_holding_registers d a l :
  snd (set_holding_registers d a l) =
    {| coils := coils d; d_inputs := d_inputs d;
       h_regs := snd (set_cells (h_regs d) a (word <$> l));
       i_regs := i_regs d |}.
Proof. unfold set_holding_registers. by destruct (set_cells _ _ _). Qed.

Lemma snd_set_coils d a l :
  snd (set_coils d a l) =
    {| coils := snd (set_cells (coils d) a l); d_inputs := d_inputs d;
       h_regs := h_regs d; i_regs := i_regs d |}.
Proof. unfold set_coils. by destruct (set_cells _ _ _). Qed.

Lemma snd_set_discrete_inputs d a l :
  snd (set_discrete_inputs d a l) =
    {| coils := coils d; d_inputs := snd (set_cells (d_inputs d) a l);
       h_regs := h_regs d; i_regs := i_regs d |}.
Proof. unfold set_discrete_inputs. by destruct (set_cells _ _ _). Qed.

Lemma _init_banks_run w :
  _init_banks w =
    (Ok tt,
     set_db {| coils := blanked 16 false (coils (db w));
               d_inputs := blanked 16 false (d_inputs (db w));
               h_regs := blanked 32 0 (h_regs (db w));
               i_regs := blanked 32 0 (i_regs (db w)) |} w).
Proof.
  unfold _init_banks.
  rewrite snd_set_input_registers, snd_set_holding_registers, snd_set_coils,
    snd_set_discrete_inputs.
  done.
Qed.

Lemma DataModel_init_run w :
  DataModel_init w = (Ok tt, set_db (initialized (db w)) w).
Proof.
  unfold DataModel_init, _init_defaults.
  unfold bind at 1. rewrite _init_banks_run.
  repeat (unfold bind at 1; rewrite write_holding_cell; simpl).
  rewrite write_coil_cell. done.
Qed.

Ltac unfold_addresses :=
  unfold Addresses.IR_AIRFLOW, Addresses.IR_TEMPERATURE,
    Addresses.IR_HUMIDITY, Addresses.IR_FAN_RPM, Addresses.IR_FAN_STATE,
    Addresses.HR_AIRFLOW_SP, Addresses.HR_TEMPERATURE_SP,
    Addresses.HR_FAN_MODE_CMD, Addresses.HR_FAN_RPM_SP,
    Addresses.HR_SIM_ENABLE, Addresses.COIL_FAN_ENABLE,
    Addresses.COIL_FAN_HIGH_REQ, Addresses.COIL_ALARM_RESET,
    Addresses.DI_FAN_FAULT, Addresses.DI_FILTER_DIRTY,
    Addresses.DI_FAN_RUNNING in *.

(** Reduces a lookup in a bank of [initialized] to arithmetic on the index
    and the bank length. *)
Ltac init_lookup :=
  unfold initialized; cbn [coils d_inputs h_regs i_regs];
  repeat first [ rewrite lookup_store | rewrite length_store
               | rewrite lookup_blanked | rewrite length_blanked ];
  unfold_addresses; unfold len in *;
  repeat case_decide; try done; try lia.

Lemma result_read_input_lookup a w w' :
  i_regs (db w') !! Z.to_nat a = i_regs (db w) !! Z.to_nat a ->
  result (read_input a) w' = result (read_input a) w.
Proof.
  intros H. unfold result. rewrite !read_input_cell. unfold cell.
  destruct (0 <=? a); [|done]. rewrite H.
  by destruct (i_regs (db w) !! Z.to_nat a).
Qed.

Lemma result_read_holding_lookup a w w' :
  h_regs (db w') !! Z.to_nat a = h_regs (db w) !! Z.to_nat a ->
  result (read_holding a) w' = result (read_holding a) w.
Proof.
  intros H. unfold result. rewrite !read_holding_cell. unfold cell.
  destruct (0 <=? a); [|done]. rewrite H.
  by destruct (h_regs (db w) !! Z.to_nat a).
Qed.

Lemma result_read_coil_lookup a w w' :
  coils (db w') !! Z.to_nat a = coils (db w) !! Z.to_nat a ->
  result (read_coil a) w' = result (read_coil a) w.
Proof.
  intros H. unfold result. rewrite !read_coil_cell. unfold cell.
  destruct (0 <=? a); [|done]. rewrite H.
  by destruct (coils (db w) !! Z.to_nat a).
Qed.

Lemma result_read_di_lookup a w w' :
  d_inputs (db w') !! Z.to_nat a = d_inputs (db w) !! Z.to_nat a ->
  result (read_di a) w' = result (read_di a) w.
Proof.
  intros H. unfold result. rewrite !read_di_cell. unfold cell.
  destruct (0 <=? a); [|done]. rewrite H.
  by destruct (d_inputs (db w) !! Z.to_nat a).
Qed.

(** X6. Constructing a [DataModel] over any bank with at least 32 registers
    and 16 booleans per bank, whatever it held, returns normally and leaves
    the setpoints 250, 225, 0, 900, the sim-enable flag 1 and the
    fan-enable coil true; every other cell among the first 32 registers and
    16 booleans is 0 or false, and the cells past them are as they were. *)
Theorem DataModel_init_defaults w :
  32 <= len (i_regs (db w)) -> 32 <= len (h_regs (db w)) ->
  16 <= len (coils (db w)) -> 16 <= len (d_inputs (db w)) ->
  let w' := exec DataModel_init w in
  result DataModel_init w = Ok tt /\
  result (read_holding Addresses.HR_AIRFLOW_SP) w' = Ok 250 /\
  result (read_holding Addresses.HR_TEMPERATURE_SP) w' = Ok 225 /\
  result get_fan_mode_cmd w' = Ok 0 /\
  result get_fan_rpm_sp w' = Ok 900 /\
  result get_sim_enabled w' = Ok true /\
  result fan_enable w' = Ok true /\
  (forall a, 5 <= a < 32 -> result (read_holding a) w' = Ok 0) /\
  (forall a, 0 <= a < 32 -> result (read_input a) w' = Ok 0) /\
  (forall a, 1 <= a < 16 -> result (read_coil a) w' = Ok false) /\
  (forall a, 0 <= a < 16 -> result (read_di a) w' = Ok false) /\
  (forall a, 32 <= a ->
     result (read_holding a) w' = result (read_holding a) w /\
     result (read_input a) w' = result (read_input a) w) /\
  (forall a, 16 <= a ->
     result (read_coil a) w' = result (read_coil a) w /\
     result (read_di a) w' = result (read_di a) w).
Proof.
  intros Hi Hh Hc Hd w'. subst w'. unfold exec, result at 1.
  rewrite DataModel_init_run. cbn [fst snd].
  assert (forall a v, 0 <= a ->
            h_regs (initialized (db w)) !! Z.to_nat a = Some v ->
            result (read_holding a)
                   (set_db (initialized (db w)) w) = Ok v) as Hrh.
  { intros a v Ha Hv. apply read_holding_Ok. by rewrite cell_lookup. }
  split_and!; try done.
  - apply Hrh; [done|]. init_lookup.
  - apply Hrh; [done|]. init_lookup.
  - apply Hrh; [done|]. init_lookup.
  - apply Hrh; [done|]. init_lookup.
  - unfold get_sim_enabled. unfold result, bind.
    rewrite read_holding_cell, cell_lookup by done.
    replace (h_regs (db (set_db (initialized (db w)) w)) !!
               Z.to_nat Addresses.HR_SIM_ENABLE) with (Some 1); [done|].
    symmetry. simpl db. init_lookup.
  - apply read_coil_Ok. rewrite cell_lookup by done. simpl db. init_lookup.
  - intros a Ha. apply Hrh; [lia|]. init_lookup.
  - intros a Ha. apply read_input_Ok. rewrite cell_lookup by lia.
    simpl db. init_lookup.
  - intros a Ha. apply read_coil_Ok. rewrite cell_lookup by lia.
    simpl db. init_lookup.
  - intros a Ha. apply read_di_Ok. rewrite cell_lookup by lia.
    simpl db. init_lookup.
  - intros a Ha. split.
    + apply result_read_holding_lookup. simpl db. init_lookup.
    + apply result_read_input_lookup. simpl db. init_lookup.
  - intros a Ha. split.
    + apply result_read_coil_lookup. simpl db. init_lookup.
    + apply result_read_di_lookup. simpl db. init_lookup.
Qed.

Lemma initialized_idempotent d : initialized (initialized d) = initialized d.
Proof.
  assert (coils (initialized (initialized d)) = coils (initialized d)) as Hc.
  { apply list_eq. intros i. init_lookup. }
  assert (d_inputs (initialized (initialized d)) = d_inputs (initialized d))
    as Hd.
  { apply list_eq. intros i. init_lookup. }
  assert (h_regs (initialized (initialized d)) = h_regs (initialized d)) as Hh.
  { apply list_eq. intros i. init_lookup. }
  assert (i_regs (initialized (initialized d)) = i_regs (initialized d)) as Hi.
  { apply list_eq. intros i. init_lookup. }
  destruct (initialized (initialized d)), (initialized d). simpl in *.
  by subst.
Qed.

(** X7. [DataModel.__init__] is idempotent on every bank, of any size and
    content: constructing a second [DataModel] over the bank of a first one
    leaves the state that first construction left. *)
Theorem DataModel_init_idempotent w :
  exec DataModel_init (exec DataModel_init w) = exec DataModel_init w.
Proof.
  unfold exec. rewrite !DataModel_init_run. cbn [snd].
  unfold set_db. cbn [db randoms draws].
  by rewrite initialized_idempotent.
Qed.

(** ** Invariants of the update cycle *)

#[export] Instance same_shape_preorder : PreOrder same_shape.
Proof.
  split.
  - intros d. by unfold same_shape.
  - intros d1 d2 d3 (?&?&?&?) (?&?&?&?). unfold same_shape.
    split_and!; congruence.
Qed.

#[export] Instance words_kept_preorder : PreOrder words_kept.
Proof.
  split.
  - intros d H. exact H.
  - intros d1 d2 d3 H12 H23 H. by apply H23, H12.
Qed.

Lemma Forall_store {A} (P : A -> Prop) bank a v :
  Forall P bank -> P v -> Forall P (store bank a v).
Proof.
  intros Hb Hv. unfold store. destruct (0 <=? a); [|done].
  by apply Forall_insert.
Qed.

(** The structural steps of a [keeps] proof; [writes] closes the goals
    left for the write helpers. *)
Ltac keeps_by writes :=
  repeat first
    [ apply keeps_bind; [apply _| |intros ?]
    | apply keeps_ret; apply _
    | apply keeps_raise; apply _
    | apply keeps_randint; apply _
    | apply keeps_read_input; apply _
    | apply keeps_read_holding; apply _
    | apply keeps_read_coil; apply _
    | apply keeps_read_di; apply _
    | apply keeps_int_mul_0_6; apply _
    | writes
    | match goal with
      | |- keeps _ (if ?b then _ else _) => destruct b
      end ].

Ltac unfold_updates :=
  unfold tick, FanController_update, SensorSimulator_update,
    fan_commanded_state, fan_rpm_actual, consume_alarm_reset,
    get_sim_enabled, get_fan_mode_cmd, get_fan_rpm_sp, fan_enable,
    fan_high_requested, set_fan_state, set_airflow, set_temperature,
    set_humidity, set_fan_rpm, set_fault, set_filter_dirty.

Lemma write_input_same_shape a v : keeps same_shape (write_input a v).
Proof.
  intros w. unfold exec. rewrite write_input_cell.
  unfold same_shape; simpl. by rewrite length_store.
Qed.

Lemma write_di_same_shape a v : keeps same_shape (write_di a v).
Proof.
  intros w. unfold exec. rewrite write_di_cell.
  unfold same_shape; simpl. by rewrite length_store.
Qed.

Lemma write_coil_same_shape a v : keeps same_shape (write_coil a v).
Proof.
  intros w. unfold exec. rewrite write_coil_cell.
  unfold same_shape; simpl. by rewrite length_store.
Qed.

Lemma write_input_words_kept a v : keeps words_kept (write_input a v).
Proof.
  intros w. unfold exec. rewrite write_input_cell.
  intros [Hi Hh]. split; simpl; [|done].
  apply Forall_store; [done|apply word_range].
Qed.

Lemma write_di_words_kept a v : keeps words_kept (write_di a v).
Proof.
  intros w. unfold exec. rewrite write_di_cell. intros [Hi Hh]. by split.
Qed.

Lemma write_coil_words_kept a v : keeps words_kept (write_coil a v).
Proof.
  intros w. unfold exec. rewrite write_coil_cell. intros [Hi Hh]. by split.
Qed.

Ltac keeps_shape :=
  unfold_updates;
  keeps_by ltac:(first [ apply write_input_same_shape
                       | apply write_di_same_shape
                       | apply write_coil_same_shape ]).

Ltac keeps_words :=
  unfold_updates;
  keeps_by ltac:(first [ apply write_input_words_kept
                       | apply write_di_words_kept
                       | apply write_coil_words_kept ]).


Lemma tick_same_shape is_run : keeps same_shape (tick is_run).
Proof. keeps_shape. Qed.

Lemma tick_words_kept is_run : keeps words_kept (tick is_run).
Proof. keeps_words. Qed.

Lemma same_shape_sized d d' : same_shape d d' -> sized d -> sized d'.
Proof.
  intros (Hc & Hd & Hh & Hi). unfold sized, len. rewrite Hc, Hd, Hh, Hi.
  done.
Qed.

(** X8. A pass of the background loop, run or skipped, returning or
    raising, never changes the length of a bank, so it keeps every address
    of the map inside its bank; and it leaves 16-bit words in every
    register of a bank whose registers were 16-bit words. *)
Theorem tick_keeps_shape_and_words (is_run : bool) (w : World) :
  let w' := exec (tick is_run) w in
  length (coils (db w')) = length (coils (db w)) /\
  length (d_inputs (db w')) = length (d_inputs (db w)) /\
  length (h_regs (db w')) = length (h_regs (db w)) /\
  length (i_regs (db w')) = length (i_regs (db w)) /\
  (sized (db w) -> sized (db w')) /\
  (words (db w) -> words (db w')).
Proof.
  intros w'. pose proof (tick_same_shape is_run w) as Hs.
  pose proof (tick_words_kept is_run w) as Hw. fold w' in Hs, Hw.
  destruct Hs as (Hc & Hd & Hh & Hi). split_and!; try done.
  by apply same_shape_sized.
Qed.







(** ** fan.py *)

(** X10. The binary64 product in [int(rpm_sp * 0.6)] never shows: for
    every 16-bit setpoint the expression returns the integer [v] with
    [v <= 0.6 * rpm_sp < v + 1], which is [3 * rpm_sp / 5] in integer
    arithmetic, and it never raises. *)
Theorem low_speed_scaling_exact (rpm_sp : Z) (w : World) :
  0 <= rpm_sp < 65536 ->
  exists v, int_mul_0_6 rpm_sp w = (Ok v, w) /\
            v = 3 * rpm_sp / 5 /\ 5 * v <= 3 * rpm_sp < 5 * (v + 1).
Proof.
  intros H. exists (3 * rpm_sp / 5).
  split; [by apply int_mul_0_6_word|]. split; [done|].
  pose proof (Z.div_mod (3 * rpm_sp) 5 ltac:(lia)).
  pose proof (Z.mod_pos_bound (3 * rpm_sp) 5 ltac:(lia)). lia.
Qed.

(** X11. An alarm reset masks the fault for one tick only.  When the reset
    is pending [FanController.update] leaves the fault input false; the
    next update, with the commands unchanged, sets it again from the state
    and the RPM it derives then, the jitter being the next draw. *)
Theorem fault_raised_again_after_reset w (en : bool) (mode : Z) (hi : bool)
    (sp : Z) :
  sized (db w) ->
  result fan_enable w = Ok en ->
  result get_fan_mode_cmd w = Ok mode ->
  result fan_high_requested w = Ok hi ->
  result get_fan_rpm_sp w = Ok sp ->
  0 <= sp < 65536 ->
  result (read_coil Addresses.COIL_ALARM_RESET) w = Ok true ->
  let state := fan_state_of en mode hi in
  let w1 := exec FanController_update w in
  let w2 := exec FanController_update w1 in
  result (read_di Addresses.DI_FAN_FAULT) w1 = Ok false /\
  result (read_di Addresses.DI_FAN_FAULT) w2 =
    Ok (negb (state =? 0) &&
        (rpm_of state sp (randoms w1 (draws w1)) <? 100)).
Proof.
  intros Hs Hen Hmode Hhi Hsp Hword Hreset state w1 w2.
  apply read_coil_Ok in Hen, Hhi, Hreset. apply read_holding_Ok in Hmode, Hsp.
  destruct (sized_cells _ Hs) as (_ & _ & Hc & Hd).
  assert (w1 = snd (FanController_update w)) as Hw1 by done.
  rewrite (FanController_update_run w en mode hi sp true) in Hw1 by done.
  cbn [snd] in Hw1. fold state in Hw1.
  assert (is_Some (cell (store (d_inputs (db w)) Addresses.DI_FAN_RUNNING
                               (0 <? state)) Addresses.DI_FAN_FAULT)) as H1.
  { rewrite cell_store_ne by done. by apply Hd. }
  split.
  - apply read_di_Ok. rewrite Hw1. simpl.
    apply cell_store_eq. rewrite cell_store_eq; [by eexists|done].
  - subst w2. unfold exec at 1.
    rewrite (FanController_update_run w1 en mode hi sp false).
    + fold state. apply read_di_Ok. simpl. rewrite cell_store_eq.
      * f_equal. f_equal.
        destruct (fan_state_of_range en mode hi) as [H|[H|H]];
          fold state in H; by rewrite H.
      * rewrite cell_store_ne by done. rewrite Hw1. simpl.
        apply cell_is_Some. rewrite cell_is_Some in H1.
        unfold len in *. by rewrite !length_store in *.
    + rewrite Hw1. simpl. by rewrite cell_store_ne.
    + by rewrite Hw1.
    + rewrite Hw1. simpl. by rewrite cell_store_ne.
    + by rewrite Hw1.
    + rewrite Hw1. simpl. apply cell_store_eq. by apply Hc.
    + done.
Qed.

(** X12. [FanController.update] draws one random number, or none when the
    derived state is [OFF], and on a bank that covers the address map with
    a 16-bit setpoint it returns normally. *)
Theorem fan_update_draws w (en : bool) (mode : Z) (hi : bool) (sp : Z) :
  sized (db w) ->
  result fan_enable w = Ok en ->
  result get_fan_mode_cmd w = Ok mode ->
  result fan_high_requested w = Ok hi ->
  result get_fan_rpm_sp w = Ok sp ->
  0 <= sp < 65536 ->
  result FanController_update w = Ok tt /\
  randoms (exec FanController_update w) = randoms w /\
  draws (exec FanController_update w) =
    if fan_state_of en mode hi =? 0 then draws w else S (draws w).
Proof.
  intros Hs Hen Hmode Hhi Hsp Hword.
  apply read_coil_Ok in Hen, Hhi. apply read_holding_Ok in Hmode, Hsp.
  destruct (sized_cells _ Hs) as (_ & _ & Hc & _).
  destruct (Hc Addresses.COIL_ALARM_RESET) as [reset Hreset]; [done|].
  unfold result, exec.
  by rewrite (FanController_update_run w en mode hi sp reset).
Qed.

(** ** sensors.py *)

Lemma keeps_SensorSimulator_update :
  keeps (agree_off sensor_footprint) SensorSimulator_update.
Proof.
  unfold SensorSimulator_update, get_sim_enabled, set_temperature,
    set_humidity, set_airflow, set_filter_dirty.
  keeps_tac.
Qed.

(** X13. Whatever the register map holds, and whether it returns or
    raises, [SensorSimulator.update] leaves every coil and every holding
    register as it was, every discrete input but filter-dirty, and every
    input register but airflow, temperature and humidity. *)
Theorem sensor_update_frame w :
  let d := db w in
  let d' := db (exec SensorSimulator_update w) in
  coils d' = coils d /\
  h_regs d' = h_regs d /\
  length (d_inputs d') = length (d_inputs d) /\
  length (i_regs d') = length (i_regs d) /\
  (forall a, a <> Addresses.DI_FILTER_DIRTY ->
             cell (d_inputs d') a = cell (d_inputs d) a) /\
  (forall a, a <> Addresses.IR_AIRFLOW -> a <> Addresses.IR_TEMPERATURE ->
             a <> Addresses.IR_HUMIDITY ->
             cell (i_regs d') a = cell (i_regs d) a).
Proof.
  intros d d'.
  destruct (keeps_SensorSimulator_update w)
    as (Hc & [Hld Hd] & Hh & [Hli Hi]).
  split_and!; try done.
  - by apply bank_agree_nothing.
  - by apply bank_agree_nothing.
  - intros a H1 H2 H3. apply Hi. simpl. tauto.
Qed.

(** X14. An enabled [SensorSimulator.update] on a bank that covers the
    address map returns normally after exactly three draws, used in the
    order temperature, humidity, airflow; the humidity register receives
    [500 + jitter] and the airflow register [max(0, target + jitter)], each
    kept modulo 65536. *)
Theorem sensor_update_humidity_airflow w (state : Z) :
  sized (db w) ->
  result (read_holding Addresses.HR_SIM_ENABLE) w = Ok 1 ->
  result (read_input Addresses.IR_FAN_STATE) w = Ok state ->
  let jh := randoms w (S (draws w)) in
  let ja := randoms w (S (S (draws w))) in
  let target := if state =? 0 then 0 else if state =? 1 then 200 else 350 in
  let w' := exec SensorSimulator_update w in
  result SensorSimulator_update w = Ok tt /\
  draws w' = S (S (S (draws w))) /\
  result (read_input Addresses.IR_HUMIDITY) w' = Ok ((500 + jh) mod 65536) /\
  result (read_input Addresses.IR_AIRFLOW) w' =
    Ok (Z.max 0 (target + ja) mod 65536).
Proof.
  intros Hs Hen Hst jh ja target w'.
  apply read_holding_Ok in Hen. apply read_input_Ok in Hst.
  destruct (sized_cells _ Hs) as (Hi & _ & _ & _).
  subst w'. unfold result at 1, exec.
  rewrite (SensorSimulator_update_run w state) by done. cbn [fst snd].
  split_and!; try done.
  - apply read_input_Ok. simpl. rewrite cell_store_ne by done.
    rewrite cell_store_eq, word_mod; [done|].
    rewrite cell_store_ne by done. by apply Hi.
  - apply read_input_Ok. simpl. rewrite cell_store_eq, word_mod; [done|].
    rewrite !cell_store_ne by done. by apply Hi.
Qed.

(** X15. [SensorSimulator.update] is enabled by the value 1 only: with any
    other sim-enable value it returns without a write or a draw, and when
    the sim-enable register is not in the bank it raises [IndexError],
    again without a write or a draw. *)
Theorem sensor_update_enabled_by_one_only w :
  (forall v, result (read_holding Addresses.HR_SIM_ENABLE) w = Ok v ->
             v <> 1 -> SensorSimulator_update w = (Ok tt, w)) /\
  (forall e, result (read_holding Addresses.HR_SIM_ENABLE) w = Raise e ->
             SensorSimulator_update w = (Raise e, w)).
Proof.
  split.
  - intros v Hv Hne. apply read_holding_Ok in Hv.
    by apply (SensorSimulator_update_disabled w v).
  - intros e He. unfold result in He. rewrite read_holding_cell in He.
    unfold SensorSimulator_update, get_sim_enabled, bind.
    rewrite read_holding_cell.
    destruct (cell (h_regs (db w)) Addresses.HR_SIM_ENABLE); [done|].
    simpl in He. by injection He as ->.
Qed.

(** ** main.py: the update cycle *)

Lemma keeps_tick is_run : keeps (agree_off tick_footprint) (tick is_run).
Proof. unfold_updates. keeps_tac. Qed.

(** X16. A pass of the background loop never writes a holding register nor
    a coil other than alarm-reset: setpoints, the mode command, sim-enable,
    fan-enable and fan-high-request are the client's alone. *)
Theorem tick_leaves_commands (is_run : bool) (w : World) :
  let d := db w in
  let d' := db (exec (tick is_run) w) in
  h_regs d' = h_regs d /\
  length (coils d') = length (coils d) /\
  (forall a, a <> Addresses.COIL_ALARM_RESET ->
             cell (coils d') a = cell (coils d) a).
Proof.
  intros d d'. destruct (keeps_tick is_run w) as ([Hl Hc] & _ & Hh & _).
  split_and!; [by apply bank_agree_nothing|done|].
  intros a Ha. by apply Hc.
Qed.

(** X17. Within one pass of the loop the sensor simulator works from the
    fan state derived in that same pass: the temperature and the
    filter-dirty input it writes are those of the state the fan controller
    has just computed from the commands, and its first draw is the one
    after the fan controller's. *)
Theorem tick_sensors_follow_fan w (en : bool) (mode : Z) (hi : bool)
    (sp : Z) :
  sized (db w) ->
  result fan_enable w = Ok en ->
  result get_fan_mode_cmd w = Ok mode ->
  result fan_high_requested w = Ok hi ->
  result get_fan_rpm_sp w = Ok sp ->
  0 <= sp < 65536 ->
  result (read_holding Addresses.HR_SIM_ENABLE) w = Ok 1 ->
  let state := fan_state_of en mode hi in
  let k := if state =? 0 then draws w else S (draws w) in
  let target := if state =? 0 then 0 else if state =? 1 then 200 else 350 in
  let w' := exec (tick true) w in
  result (tick true) w = Ok tt /\
  result (read_input Addresses.IR_FAN_STATE) w' = Ok state /\
  result (read_input Addresses.IR_TEMPERATURE) w' =
    Ok (Z.max 150 (Z.min 300
          (225 + (if state =? 0 then 30 else -5 * state) + randoms w k))) /\
  result (read_di Addresses.DI_FILTER_DIRTY) w' =
    Ok (negb (state =? 0) &&
        (Z.max 0 (target + randoms w (S (S k))) <? 100)).
Proof.
  intros Hs Hen Hmode Hhi Hsp Hword Hsim state k target w'.
  apply read_coil_Ok in Hen, Hhi. apply read_holding_Ok in Hmode, Hsp, Hsim.
  destruct (sized_cells _ Hs) as (Hi & _ & Hc & Hd).
  destruct (Hc Addresses.COIL_ALARM_RESET) as [reset Hreset]; [done|].
  pose proof (FanController_update_run w en mode hi sp reset
                Hen Hmode Hhi Hsp Hreset Hword) as Hfan.
  cbv zeta in Hfan. fold state in Hfan.
  assert (word state = state) as Hstate.
  { apply word_small.
    destruct (fan_state_of_range en mode hi) as [H|[H|H]];
      fold state in H; rewrite H; lia. }
  subst w'. unfold result at 1, exec, tick, bind. rewrite Hfan.
  rewrite (SensorSimulator_update_run _ state).
  - cbn [fst snd db randoms draws]. fold k. split_and!.
    + done.
    + apply read_input_Ok. cbn [db i_regs].
      rewrite !cell_store_ne by done. rewrite cell_store_eq, Hstate; [done|].
      by apply Hi.
    + apply read_input_Ok. cbn [db i_regs].
      rewrite !cell_store_ne by done. rewrite cell_store_eq.
      * f_equal. apply word_small. lia.
      * rewrite !cell_store_ne by done. by apply Hi.
    + apply read_di_Ok. cbn [db d_inputs]. rewrite cell_store_eq.
      * f_equal. f_equal.
        destruct (fan_state_of_range en mode hi) as [H|[H|H]];
          fold state in H; by rewrite H.
      * assert (is_Some (cell (store (store (d_inputs (db w))
                  Addresses.DI_FAN_RUNNING (0 <? state))
                  Addresses.DI_FAN_FAULT ((0 <? state) &&
                    (rpm_of state sp (randoms w (draws w)) <? 100)))
                  Addresses.DI_FILTER_DIRTY)) as H1.
        { rewrite !cell_store_ne by done. by apply Hd. }
        destruct reset; [|done]. by rewrite cell_store_ne.
  - done.
  - cbn [db i_regs]. rewrite cell_store_ne by done.
    rewrite cell_store_eq, Hstate; [done|]. by apply Hi.
Qed.


(** ** Instances of the properties above *)

Lemma DataModel_init_defaults_witness :
  let w := {| db := small_bank; randoms := fun _ => 0; draws := O |} in
  let w' := exec DataModel_init w in
  result DataModel_init w = Ok tt /\
  result (read_holding Addresses.HR_AIRFLOW_SP) w' = Ok 250 /\
  result (read_holding Addresses.HR_TEMPERATURE_SP) w' = Ok 225 /\
  result get_fan_mode_cmd w' = Ok 0 /\
  result get_fan_rpm_sp w' = Ok 900 /\
  result get_sim_enabled w' = Ok true /\
  result fan_enable w' = Ok true /\
  (forall a, 5 <= a < 32 -> result (read_holding a) w' = Ok 0) /\
  (forall a, 0 <= a < 32 -> result (read_input a) w' = Ok 0) /\
  (forall a, 1 <= a < 16 -> result (read_coil a) w' = Ok false) /\
  (forall a, 0 <= a < 16 -> result (read_di a) w' = Ok false) /\
  (forall a, 32 <= a ->
     result (read_holding a) w' = result (read_holding a) w /\
     result (read_input a) w' = result (read_input a) w) /\
  (forall a, 16 <= a ->
     result (read_coil a) w' = result (read_coil a) w /\
     result (read_di a) w' = result (read_di a) w).
Proof.
  apply (DataModel_init_defaults
           {| db := small_bank; randoms := fun _ => 0; draws := O |});
    vm_compute; discriminate.
Defined.


Lemma low_speed_scaling_exact_witness :
  exists v, int_mul_0_6 500 (fresh 0) = (Ok v, fresh 0) /\
            v = 3 * 500 / 5 /\ 5 * v <= 3 * 500 < 5 * (v + 1).
Proof. apply (low_speed_scaling_exact 500 (fresh 0)). lia. Defined.

Lemma fault_raised_again_after_reset_witness :
  let w1 := exec FanController_update faulty_reset in
  let w2 := exec FanController_update w1 in
  result (read_di Addresses.DI_FAN_FAULT) w1 = Ok false /\
  result (read_di Addresses.DI_FAN_FAULT) w2 =
    Ok (negb (1 =? 0) && (rpm_of 1 160 (randoms w1 (draws w1)) <? 100)).
Proof.
  apply (fault_raised_again_after_reset faulty_reset true 1 false 160).
  - vm_compute. intuition discriminate.
  - vm_compute. reflexivity.
  - vm_compute. reflexivity.
  - vm_compute. reflexivity.
  - vm_compute. reflexivity.
  - lia.
  - vm_compute. reflexivity.
Defined.

Lemma fan_update_draws_witness :
  result FanController_update faulty_reset = Ok tt /\
  randoms (exec FanController_update faulty_reset) = randoms faulty_reset /\
  draws (exec FanController_update faulty_reset) =
    if fan_state_of true 1 false =? 0 then draws faulty_reset
    else S (draws faulty_reset).
Proof.
  apply (fan_update_draws faulty_reset true 1 false 160).
  - vm_compute. intuition discriminate.
  - vm_compute. reflexivity.
  - vm_compute. reflexivity.
  - vm_compute. reflexivity.
  - vm_compute. reflexivity.
  - lia.
Defined.

Lemma sensor_update_humidity_airflow_witness :
  let w := fresh 0 in
  let w' := exec SensorSimulator_update w in
  result SensorSimulator_update w = Ok tt /\
  draws w' = S (S (S (draws w))) /\
  result (read_input Addresses.IR_HUMIDITY) w' =
    Ok ((500 + randoms w (S (draws w))) mod 65536) /\
  result (read_input Addresses.IR_AIRFLOW) w' =
    Ok (Z.max 0 (0 + randoms w (S (S (draws w)))) mod 65536).
Proof.
  apply (sensor_update_humidity_airflow (fresh 0) 0).
  - vm_compute. intuition discriminate.
  - vm_compute. reflexivity.
  - vm_compute. reflexivity.
Defined.

Lemma tick_sensors_follow_fan_witness :
  let w := exec (write_holding Addresses.HR_FAN_MODE_CMD 2) (fresh 0) in
  let w' := exec (tick true) w in
  result (tick true) w = Ok tt /\
  result (read_input Addresses.IR_FAN_STATE) w' = Ok 2 /\
  result (read_input Addresses.IR_TEMPERATURE) w' =
    Ok (Z.max 150 (Z.min 300 (225 + -5 * 2 + randoms w (S (draws w))))) /\
  result (read_di Addresses.DI_FILTER_DIRTY) w' =
    Ok (negb (2 =? 0) &&
        (Z.max 0 (350 + randoms w (S (S (S (draws w))))) <? 100)).
Proof.
  apply (tick_sensors_follow_fan
           (exec (write_holding Addresses.HR_FAN_MODE_CMD 2) (fresh 0))
           true 2 false 900).
  - vm_compute. intuition discriminate.
  - vm_compute. reflexivity.
  - vm_compute. reflexivity.
  - vm_compute. reflexivity.
  - vm_compute. reflexivity.
  - lia.
  - vm_compute. reflexivity.
Defined.
